(** * pyBL: the integral boundary layer base class ([pyBL/ibl_base.py])

    A shallow embedding of [IBLResult], [IBLTermEventBase] and [IBLBase]
    ([__init__], [set_velocity], [solve], [y], [yp]) and the properties of
    the integration framework that are checked against it.

    Python floats are IEEE binary64 numbers: they are modelled by Rocq's
    primitive floats, so that comparisons and the arithmetic of the dense
    output (including [0/0]) evaluate exactly as NumPy evaluates them.
    Python exceptions are modelled by a small error monad. *)

From Stdlib Require Import List ZArith String Bool Lia Floats Uint63 Sorted
  Permutation.
Import ListNotations.

Set Implicit Arguments.

Local Open Scope string_scope.
Local Open Scope list_scope.
Local Open Scope Z_scope.

(** ** Python exceptions *)

Inductive PyExc : Type :=
| ValueError (msg : string)
| TypeError (msg : string)
| IndexError (msg : string).

(** A computation either raises ([inl]) or returns ([inr]). *)
Definition Py (A : Type) : Type := (PyExc + A)%type.

Definition ret {A : Type} (a : A) : Py A := inr a.
Definition raise {A : Type} (e : PyExc) : Py A := inl e.

Definition bind {A B : Type} (m : Py A) (k : A -> Py B) : Py B :=
  match m with
  | inl e => inl e
  | inr a => k a
  end.

Notation "x <- m ;; k" := (bind m (fun x => k))
  (at level 61, m at next level, right associativity).

Definition is_ValueError {A : Type} (m : Py A) : Prop :=
  match m with inl (ValueError _) => True | _ => False end.

Definition is_TypeError {A : Type} (m : Py A) : Prop :=
  match m with inl (TypeError _) => True | _ => False end.

(** ** [TERMINATION_MESSAGES] and [IBLResult] *)

Definition TERMINATION_MESSAGES : list (Z * string) :=
  [ (0, "Completed"); (-1, "Separated"); (1, "Transition");
    (-99, "Unknown Event") ].

(** [dict.get]: [None] when the key is absent. *)
Fixpoint dict_get (d : list (Z * string)) (k : Z) : option string :=
  match d with
  | [] => None
  | (k', v) :: d' => if Z.eqb k k' then Some v else dict_get d' k
  end.

(** [str.format] prints [None] as the text "None". *)
Definition str_of (o : option string) : string :=
  match o with Some s => s | None => "None" end.

Record IBLResult : Type := mkIBLResult {
  x_end : float;
  F_end : list float;
  status : Z;
  message : option string;
  success : bool
}.

(** ** [IBLTermEventBase] *)

Record IBLTermEvent : Type := mkEvent {
  terminal : bool;
  _call_impl : float -> list float -> float;
  event_info : Z * string
}.

(** [IBLTermEventBase.__init__] sets [terminal = True]. *)
Definition IBLTermEventBase (impl : float -> list float -> float)
    (info : Z * string) : IBLTermEvent :=
  {| terminal := true; _call_impl := impl; event_info := info |}.

(** ** What [scipy.integrate.solve_ivp] hands back *)

Record OdeResult : Type := mkOdeResult {
  ode_t : list float;
  ode_sol : float -> list float;
  ode_t_events : option (list (list float));
  ode_status : Z;
  ode_message : string;
  ode_success : bool
}.

(** ** Arguments of [solve] *)

(** [y0i] is a 0-dimensional value or a sequence. *)
Inductive StateArg : Type :=
| Scalar (v : float)
| Vector (l : list float).

(** [term_event] is [None], a [list] of events, or a single event. *)
Inductive TermArg : Type :=
| TermNone
| TermList (l : list IBLTermEvent)
| TermOne (e : IBLTermEvent).

(** Callable velocity objects; [vderivative], when present, is the object's
    [derivative] method, called with no argument ([None]) or with the order
    of the derivative. The objects are those that behave: a call returns a
    float and [derivative] returns a callable. An object whose call raises,
    or whose [derivative] returns something else, is not represented. *)
#[warnings="-register-all"]
Inductive VelFun : Type :=
| mkVelFun (vcall : float -> float)
    (vderivative : option (option nat -> VelFun)).

Definition vcall (f : VelFun) : float -> float :=
  match f with mkVelFun c _ => c end.

Definition vderivative (f : VelFun) : option (option nat -> VelFun) :=
  match f with mkVelFun _ d => d end.

(** What [np.asarray] makes of an element of a velocity pair. *)
Record ndarray : Type := mk_ndarray {
  ndim : nat;
  shape : list nat;
  data : list float
}.

(** The [U_e] argument of [set_velocity]: a callable, a sequence (it has a
    length and elements), or an object that has no length, such as a plain
    number. *)
Inductive VelArg : Type :=
| VCallable (f : VelFun)
| VSized (items : list ndarray)
| VUnsized (x : float).

(** A derivative argument that is not [None]. *)
Inductive DerArg : Type :=
| DCallable (f : VelFun)
| DNotCallable.

(** One step of the solver's dense output ([RkDenseOutput]): the fields [yp]
    reads, and the object's own evaluation [seg_call]. *)
Record DenseOutput : Type := mkDenseOutput {
  t_old : float;
  h : float;
  order : nat;
  Q : list (list float);
  seg_call : float -> list float
}.

(** ** The attributes of an [IBLBase] instance

    [_ode_impl], [_ode_y] (for [self._ode.y]), [x_vec] and
    [dense_output_vec] are what the concrete method classes provide. *)

Record IBLBase : Type := mkIBLBase {
  _U_e : option VelFun;
  _dU_edx : option VelFun;
  _d2U_edx2 : option DerArg;
  _kill_events : option (list IBLTermEvent);
  _F : option (float -> list float);
  _solution : option (float -> list float);
  _ode_impl : float -> list float -> list float;
  _ode_y : list float;
  x_vec : list float;
  dense_output_vec : list DenseOutput
}.

Definition set_U_e (self : IBLBase) (v : option VelFun) : IBLBase :=
  {| _U_e := v; _dU_edx := _dU_edx self; _d2U_edx2 := _d2U_edx2 self;
     _kill_events := _kill_events self; _F := _F self;
     _solution := _solution self; _ode_impl := _ode_impl self;
     _ode_y := _ode_y self; x_vec := x_vec self;
     dense_output_vec := dense_output_vec self |}.

Definition set_dU_edx (self : IBLBase) (v : option VelFun) : IBLBase :=
  {| _U_e := _U_e self; _dU_edx := v; _d2U_edx2 := _d2U_edx2 self;
     _kill_events := _kill_events self; _F := _F self;
     _solution := _solution self; _ode_impl := _ode_impl self;
     _ode_y := _ode_y self; x_vec := x_vec self;
     dense_output_vec := dense_output_vec self |}.

Definition set_d2U_edx2 (self : IBLBase) (v : option DerArg) : IBLBase :=
  {| _U_e := _U_e self; _dU_edx := _dU_edx self; _d2U_edx2 := v;
     _kill_events := _kill_events self; _F := _F self;
     _solution := _solution self; _ode_impl := _ode_impl self;
     _ode_y := _ode_y self; x_vec := x_vec self;
     dense_output_vec := dense_output_vec self |}.

Definition set_solution (self : IBLBase) (s : option (float -> list float))
    : IBLBase :=
  {| _U_e := _U_e self; _dU_edx := _dU_edx self;
     _d2U_edx2 := _d2U_edx2 self; _kill_events := _kill_events self;
     _F := _F self; _solution := s; _ode_impl := _ode_impl self;
     _ode_y := _ode_y self; x_vec := x_vec self;
     dense_output_vec := dense_output_vec self |}.

Definition set_kill_events (self : IBLBase)
    (v : option (list IBLTermEvent)) : IBLBase :=
  {| _U_e := _U_e self; _dU_edx := _dU_edx self;
     _d2U_edx2 := _d2U_edx2 self; _kill_events := v; _F := _F self;
     _solution := _solution self; _ode_impl := _ode_impl self;
     _ode_y := _ode_y self; x_vec := x_vec self;
     dense_output_vec := dense_output_vec self |}.

(** ** [IBLBase._add_kill_event] *)

Definition _add_kill_event (self : IBLBase) (ke : IBLTermEvent) : IBLBase :=
  match _kill_events self with
  | None => set_kill_events self (Some [ke])
  | Some l => set_kill_events self (Some (l ++ [ke]))
  end.

(** ** [IBLBase.set_velocity] and [IBLBase.__init__] *)

#[warnings="-inexact-float"]
Definition dx_first : float := 1e-4%float.

#[warnings="-inexact-float"]
Definition dx_second : float := 1e-5%float.

(** [x_pts.shape[0]] *)
Definition shape0 (a : ndarray) : Py nat :=
  match shape a with
  | [] => raise (IndexError "tuple index out of range")
  | n :: _ => ret n
  end.

Section Velocity.

(** [scipy.misc.derivative(func, x0, dx, n, order)] and
    [scipy.interpolate.CubicSpline(x, y)]: library routines, taken as
    given. The spline constructor may raise. *)
Variable fd : (float -> float) -> float -> float -> nat -> nat -> float.
Variable CubicSpline : list float -> list float -> Py VelFun.

(** Lines 179-219: [U_e] is callable. The instance is returned along with
    the outcome, since attributes are assigned before an error is raised.
    The finite-difference lambdas of the code read [self._U_e] and
    [self._dU_edx] when they are called; here they hold the callable this
    call stores, which is the same until a later call assigns the
    attribute again. *)
Definition set_velocity_callable (self : IBLBase) (U_e : VelFun)
    (dU_edx d2U_edx2 : option DerArg) : IBLBase * Py unit :=
  let self := set_U_e self (Some U_e) in
  match dU_edx with
  | None =>
      match d2U_edx2 with
      | Some _ =>
          (self, raise (ValueError
             "Can only pass second derivative if first derivative was specified"))
      | None =>
          match vderivative U_e with
          | Some derivative =>
              let self := set_dU_edx self (Some (derivative None)) in
              (set_d2U_edx2 self
                 (Some (DCallable (derivative (Some 2%nat)))), ret tt)
          | None =>
              let self :=
                set_dU_edx self
                  (Some (mkVelFun
                           (fun x => fd (vcall U_e) x dx_first 1 3) None)) in
              (set_d2U_edx2 self
                 (Some (DCallable
                          (mkVelFun
                             (fun x => fd (vcall U_e) x dx_first 2 3) None))),
               ret tt)
          end
      end
  | Some DNotCallable =>
      (self, raise (ValueError
         "Must pass in callable object for first derivative if callable U_e given"))
  | Some (DCallable dU) =>
      let self := set_dU_edx self (Some dU) in
      match d2U_edx2 with
      | None =>
          match vderivative dU with
          | Some derivative =>
              (set_d2U_edx2 self (Some (DCallable (derivative None))),
               ret tt)
          | None =>
              (set_d2U_edx2 self
                 (Some (DCallable
                          (mkVelFun
                             (fun x => fd (vcall dU) x dx_second 1 3) None))),
               ret tt)
          end
      | Some d2 =>
          (* [callable(dU_edx)] is tested a second time here; it holds *)
          (set_d2U_edx2 self (Some d2), ret tt)
      end
  end.

(** Lines 222-241: the checks on a pair of sample vectors, then the spline.
    The derivative arguments are not read on this path. *)
Definition spline_of_pair (x_pts U_e_pts : ndarray) : Py VelFun :=
  npts <- shape0 x_pts ;;
  if negb (Nat.eqb (ndim x_pts) 1) then
    raise (ValueError
      "First element of U_e 2-tuple must be 1D vector of distances")
  else if negb (Nat.eqb (ndim U_e_pts) 1) then
    raise (ValueError
      "Second element of U_e 2-tuple must be 1D vector of Velocities")
  else
    n_U <- shape0 U_e_pts ;;
    if negb (Nat.eqb npts n_U) then
      raise (ValueError "Vectors in U_e 2-tuple must be of same length")
    else if Nat.ltb npts 2 then
      raise (ValueError "Must pass at least two points for edge velocity")
    else
      CubicSpline (data x_pts) (data U_e_pts).

Definition set_velocity (self : IBLBase) (U_e : VelArg)
    (dU_edx d2U_edx2 : option DerArg) : IBLBase * Py unit :=
  match U_e with
  | VCallable f => set_velocity_callable self f dU_edx d2U_edx2
  | VSized items =>
      (* [len(U_e) == 2] *)
      match items with
      | [x_pts; U_e_pts] =>
          match spline_of_pair x_pts U_e_pts with
          | inl e => (self, inl e)
          | inr U_e_spline =>
              set_velocity_callable self U_e_spline None None
          end
      | _ =>
          (self, raise (ValueError
             "Don't know how to use {} to initialize velocity"))
      end
  | VUnsized _ =>
      (* [len(U_e)] on an object without a length *)
      (self, raise (TypeError "object of type 'float' has no len()"))
  end.

(** The instance before [__init__] has assigned anything; [ode_impl] is the
    method of the concrete class. *)
Definition blank (ode_impl : float -> list float -> list float) : IBLBase :=
  {| _U_e := None; _dU_edx := None; _d2U_edx2 := None;
     _kill_events := None; _F := None; _solution := None;
     _ode_impl := ode_impl; _ode_y := []; x_vec := [];
     dense_output_vec := [] |}.

(** [IBLBase.__init__(U_e, dU_edx, d2U_edx2)]; [None] arguments are
    [None]. *)
Definition init (ode_impl : float -> list float -> list float)
    (U_e : option VelArg) (dU_edx d2U_edx2 : option DerArg) : Py IBLBase :=
  let self := blank ode_impl in
  self <-
    match U_e with
    | None =>
        match dU_edx, d2U_edx2 with
        | Some _, _ =>
            raise (ValueError "Must specify U_e if specifying dU_edx")
        | None, Some _ =>
            raise (ValueError "Must specify U_e if specifying d2U_edx2")
        | None, None => ret self
        end
    | Some U_e =>
        let '(self, r) := set_velocity self U_e dU_edx d2U_edx2 in
        _ <- r ;; ret self
    end ;;
  ret self.

End Velocity.

(** ** [IBLBase.U_e], [IBLBase.dU_edx] and [IBLBase.d2U_edx2] *)

(** Calling a stored second derivative: what [set_velocity] stored may be
    an object that cannot be called. *)
Definition py_call (f : DerArg) (x : float) : Py float :=
  match f with
  | DCallable f => ret (vcall f x)
  | DNotCallable => raise (TypeError "object is not callable")
  end.

Definition U_e (self : IBLBase) (x : float) : Py float :=
  match _U_e self with
  | Some f => ret (vcall f x)
  | None => raise (ValueError "U_e was not set")
  end.

Definition dU_edx (self : IBLBase) (x : float) : Py float :=
  match _dU_edx self with
  | Some f => ret (vcall f x)
  | None => raise (ValueError "dU_edx was not set")
  end.

Definition d2U_edx2 (self : IBLBase) (x : float) : Py float :=
  match _d2U_edx2 self with
  | Some f => py_call f x
  | None => raise (ValueError "d2U_edx2 was not set")
  end.

(** ** [IBLBase.y] and [IBLBase.yp]: the dense output *)

(** [np.zeros] *)
Definition zeros (n : nat) : list float := repeat 0%float n.

(** [l[j]] on a list *)
Definition py_index {A : Type} (l : list A) (j : nat) : Py A :=
  match nth_error l j with
  | Some a => ret a
  | None => raise (IndexError "list index out of range")
  end.

(** [[f(a) for a in l]], stopping at the first error. *)
Fixpoint py_map {A B : Type} (f : A -> Py B) (l : list A) : Py (list B) :=
  match l with
  | [] => ret []
  | a :: l' => b <- f a ;; bs <- py_map f l' ;; ret (b :: bs)
  end.

(** [y_array[i,:] = v] on a row of [n] entries: [v] has [n] entries, or one
    entry that is broadcast. *)
Definition assign_row (n : nat) (v : list float) : Py (list float) :=
  if Nat.eqb (List.length v) n then ret v
  else
    match v with
    | [a] => ret (repeat a n)
    | _ => raise (ValueError "could not broadcast input array")
    end.

(** The inner loop of [y] for one station [xi], from segment [j] on. The
    row stays at its zeros when no segment holds [xi]. *)
Fixpoint y_row (x_vec : list float) (n : nat) (xi : float) (j : nat)
    (segs : list DenseOutput) : Py (list float) :=
  match segs with
  | [] => ret (zeros n)
  | seg :: rest =>
      lo <- py_index x_vec j ;;
      hi <- py_index x_vec (S j) ;;
      if (lo <=? xi)%float && (xi <=? hi)%float then
        assign_row n (seg_call seg xi)
      else
        y_row x_vec n xi (S j) rest
  end.

Definition y (self : IBLBase) (x : list float) : Py (list (list float)) :=
  py_map
    (fun xi =>
       y_row (x_vec self) (List.length (_ode_y self)) xi 0
         (dense_output_vec self))
    x.

(** [np.cumprod] *)
Fixpoint cumprod_from (acc : float) (l : list float) : list float :=
  match l with
  | [] => []
  | a :: l' => let acc := (acc * a)%float in acc :: cumprod_from acc l'
  end.

Definition cumprod (l : list float) : list float :=
  match l with
  | [] => []
  | a :: l' => a :: cumprod_from a l'
  end.

(** Element by element, over the common length. *)
Fixpoint zip_with (f : float -> float -> float) (a b : list float)
    : list float :=
  match a, b with
  | x :: a', y :: b' => f x y :: zip_with f a' b'
  | _, _ => []
  end.

(** [np.arange(1, order + 2)], as the floats the product turns them into. *)
Definition float_of_nat (k : nat) : float :=
  of_uint63 (Uint63.of_Z (Z.of_nat k)).

Definition arange_1 (order : nat) : list float :=
  map float_of_nat (seq 1 (S order)).

(** [term2 * row] with NumPy's broadcasting of a one-entry operand. *)
Definition bmul (term2 row : list float) : Py (list float) :=
  if Nat.eqb (List.length term2) (List.length row) then
    ret (zip_with PrimFloat.mul term2 row)
  else
    match term2, row with
    | [k], _ => ret (map (fun q => (k * q)%float) row)
    | _, [q] => ret (map (fun k => (k * q)%float) term2)
    | _, _ => raise (ValueError "operands could not be broadcast together")
    end.

(** One entry of [np.dot]: the products summed from left to right. *)
Definition dot (r p : list float) : Py float :=
  if Nat.eqb (List.length r) (List.length p) then
    ret (fold_left PrimFloat.add (zip_with PrimFloat.mul r p) 0%float)
  else
    raise (ValueError "shapes not aligned").

(** Lines 487-501 for a scalar station [xi] inside segment [seg]. *)
Definition seg_derivative (seg : DenseOutput) (xi : float)
    : Py (list float) :=
  let xdist := ((xi - t_old seg) / h seg)%float in
  let p := repeat xdist (S (order seg)) in
  let p := zip_with PrimFloat.div (cumprod p) p in
  let term2 := arange_1 (order seg) in
  let term3 := Q seg in
  let term4 := p in
  prod <- py_map (bmul term2) term3 ;;
  py_map (fun r => dot r term4) prod.

(** The inner loop of [yp] for one station [xi], from segment [j] on. *)
Fixpoint yp_row (x_vec : list float) (n : nat) (xi : float) (j : nat)
    (segs : list DenseOutput) : Py (list float) :=
  match segs with
  | [] => ret (zeros n)
  | seg :: rest =>
      lo <- py_index x_vec j ;;
      hi <- py_index x_vec (S j) ;;
      if (lo <=? xi)%float && (xi <=? hi)%float then
        v <- seg_derivative seg xi ;;
        assign_row n v
      else
        yp_row x_vec n xi (S j) rest
  end.

Definition yp (self : IBLBase) (x : list float) : Py (list (list float)) :=
  py_map
    (fun xi =>
       yp_row (x_vec self) (List.length (_ode_y self)) xi 0
         (dense_output_vec self))
    x.

(** ** [IBLBase.solve] *)

(** [y0 = np.asarray(y0i); if y0.ndim == 0: y0 = [y0i]] *)
Definition as_state (y0i : StateArg) : list float :=
  match y0i with
  | Scalar v => [v]
  | Vector l => l
  end.

(** Lines 275-286: the events handed to the solver, the instance's own
    first, then the caller's. [None] when there is none of either. *)
Definition merge_events (own : option (list IBLTermEvent))
    (term_event : TermArg) : option (list IBLTermEvent) :=
  let kill_events := [] in
  let kill_events :=
    match own with
    | Some ke => kill_events ++ ke
    | None => kill_events
    end in
  match term_event with
  | TermNone =>
      match own with
      | None => None
      | Some _ => Some kill_events
      end
  | TermList l => Some (kill_events ++ l)
  | TermOne e => Some (kill_events ++ [e])
  end.

(** [for i, xe in enumerate(t_events): if xe.shape[0] > 0: ... break]:
    the index of the first event with a recorded station, and [xe[0]]. *)
Fixpoint first_recorded (i : nat) (t_events : list (list float))
    : option (nat * float) :=
  match t_events with
  | [] => None
  | [] :: rest => first_recorded (S i) rest
  | (x :: _) :: _ => Some (i, x)
  end.

(** [rtn.t[-1]] *)
Definition py_last (l : list float) : Py float :=
  match rev l with
  | [] => raise (IndexError "index -1 is out of bounds")
  | x :: _ => ret x
  end.

(** [kill_events[i]] *)
Definition py_event_at (kill_events : option (list IBLTermEvent)) (i : nat)
    : Py IBLTermEvent :=
  match kill_events with
  | None => raise (TypeError "'NoneType' object is not subscriptable")
  | Some l =>
      match nth_error l i with
      | Some e => ret e
      | None => raise (IndexError "list index out of range")
      end
  end.

(** Lines 318-321. *)
Definition final_message (status : Z) (message : string) : option string :=
  if (0 <? Z.of_nat (String.length message)) then
    Some (str_of (dict_get TERMINATION_MESSAGES status) ++ ": "
            ++ message)%string
  else
    dict_get TERMINATION_MESSAGES status.

(** Lines 292-323: what [solve] makes of the solver's result. *)
Definition gather (xrange : float * float) (y0 : list float)
    (kill_events : option (list IBLTermEvent)) (rtn : OdeResult)
    : Py IBLResult :=
  let x_end := fst xrange in
  let F_end := y0 in
  let status := -99 in
  let message := ode_message rtn in
  r <-
    (if ode_success rtn then
       if ode_status rtn =? 0 then
         x_end <- py_last (ode_t rtn) ;;
         ret (x_end, ode_sol rtn x_end, 0, "")
       else if ode_status rtn =? 1 then
         let message := "Event not found." in
         match ode_t_events rtn with
         | None => raise (TypeError "'NoneType' object is not iterable")
         | Some t_events =>
             match first_recorded 0 t_events with
             | Some (i, xe0) =>
                 ev <- py_event_at kill_events i ;;
                 ret (xe0, ode_sol rtn xe0,
                      fst (event_info ev), snd (event_info ev))
             | None => ret (x_end, F_end, status, message)
             end
         end
       else
         ret (x_end, F_end, -99, message)
     else
       ret (x_end, F_end, status, message)) ;;
  let '(x_end, F_end, status, message) := r in
  ret {| x_end := x_end; F_end := F_end; status := status;
         message := final_message status message;
         success := ode_success rtn |}.

Section Solve.

(** [scipy.integrate.solve_ivp(fun, t_span, y0, method='RK45',
    dense_output=True, events, rtol, atol)]: a library routine, taken as
    given. It may raise, or return its result record. *)
Variable solve_ivp :
  (float -> list float -> list float) -> float * float -> list float ->
  option (list IBLTermEvent) -> float -> float -> Py OdeResult.

Definition solve (self : IBLBase) (xrange : float * float)
    (y0i : StateArg) (rtol atol : float) (term_event : TermArg)
    : Py (IBLBase * IBLResult) :=
  let y0 := as_state y0i in
  let kill_events := merge_events (_kill_events self) term_event in
  rtn <- solve_ivp (_ode_impl self) xrange y0 kill_events rtol atol ;;
  let self := set_solution self None in
  let self :=
    if ode_success rtn then set_solution self (Some (ode_sol rtn))
    else self in
  res <- gather xrange y0 kill_events rtn ;;
  ret (self, res).

(** The result record of a [solve] call, leaving the instance aside. *)
Definition solve_result (self : IBLBase) (xrange : float * float)
    (y0i : StateArg) (rtol atol : float) (term_event : TermArg)
    : Py IBLResult :=
  p <- solve self xrange y0i rtol atol term_event ;; ret (snd p).

(** The solver's answer to the call [solve] makes. *)
Definition solver_returns (self : IBLBase) (xrange : float * float)
    (y0i : StateArg) (rtol atol : float) (term_event : TermArg)
    (rtn : OdeResult) : Prop :=
  solve_ivp (_ode_impl self) xrange (as_state y0i)
    (merge_events (_kill_events self) term_event) rtol atol = inr rtn.

End Solve.

(** ** The event bookkeeping of [scipy.integrate.solve_ivp]

    [solve] reads [t_events] and [status] as the library fills them in. The
    part of [solve_ivp] that does so (its driver loop with
    [find_active_events] and [handle_events]) is modelled here after the
    library's code. The Runge-Kutta stepper, the root finder and the
    assembled dense output stay parameters. *)

Inductive SolverStatus : Type := Running | Finished | Failed.

(** What one call of [solver.step()] leaves behind. *)
Record Step : Type := mkStep {
  step_message : string;
  step_status : SolverStatus;
  step_t_old : float;
  step_t : float;
  step_y : list float;
  step_dense : DenseOutput
}.

(** [MESSAGES] of [scipy.integrate._ivp.ivp] *)
Definition MESSAGES : list (Z * string) :=
  [ (0, "The solver successfully reached the end of the integration interval.");
    (1, "A termination event occurred.") ].

(** [event(t, y)] *)
Definition event_call (e : IBLTermEvent) (t : float) (y : list float)
    : float :=
  _call_impl e t y.

(** [find_active_events(g, g_new, direction)] with every direction 0 (the
    events carry no [direction] attribute): the events whose value changed
    sign over the step, in ascending index order, each with its index. *)
Fixpoint find_active_events (i : nat) (events : list IBLTermEvent)
    (g g_new : list float) : list (nat * IBLTermEvent) :=
  match events, g, g_new with
  | e :: events', a :: g', b :: g_new' =>
      let up := ((a <=? 0) && (0 <=? b))%float in
      let down := ((0 <=? a) && (b <=? 0))%float in
      let rest := find_active_events (S i) events' g' g_new' in
      if up || down then (i, e) :: rest else rest
  | _, _, _ => []
  end.

(** NumPy's order on floats when sorting: NaN goes last. *)
Definition npy_lt (a b : float) : bool :=
  ((a <? b)%float || (PrimFloat.is_nan b && negb (PrimFloat.is_nan a)))%bool.

(** [np.argsort] as an insertion sort: each entry moves left past the
    entries with a strictly larger key, so that equal keys stay in place.
    [sorted_rev] is the sorted prefix, last entry first. Entries are kept
    with their keys. NumPy's default sort does not promise to keep equal
    keys in place; this is one of the orders it may give, and
    [solve_ivp_by] below takes the sort as a parameter. *)
Fixpoint insert_left {A : Type} (x : A * float)
    (sorted_rev : list (A * float)) : list (A * float) :=
  match sorted_rev with
  | [] => [x]
  | s :: rest =>
      if npy_lt (snd x) (snd s) then s :: insert_left x rest
      else x :: s :: rest
  end.

Definition sort_by_key {A : Type} (l : list (A * float))
    : list (A * float) :=
  rev (fold_left (fun sorted_rev x => insert_left x sorted_rev) l []).

(** [np.nonzero(is_terminal[active_events])[0][0]] *)
Fixpoint first_terminal (l : list ((nat * IBLTermEvent) * float))
    : option nat :=
  match l with
  | [] => None
  | ((_, e), _) :: rest =>
      if terminal e then Some 0%nat
      else option_map S (first_terminal rest)
  end.

(** [t_events[e].append(te)] *)
Fixpoint append_at (e : nat) (te : float) (t_events : list (list float))
    : list (list float) :=
  match t_events, e with
  | [], _ => []
  | l :: rest, O => (l ++ [te]) :: rest
  | l :: rest, S e' => l :: append_at e' te rest
  end.

Section Ivp.

(** [scipy.optimize.brentq(f, a, b)], the steps the RK45 stepper takes for
    a problem until it finishes or fails, and [OdeSolution(ts,
    interpolants)] as a callable. *)
Variable brentq : (float -> float) -> float -> float -> float.
Variable rk45_steps :
  (float -> list float -> list float) -> float * float -> list float ->
  float -> float -> list Step.
Variable OdeSolution : list float -> list DenseOutput -> float -> list float.

Definition solve_event_equation (event : IBLTermEvent)
    (sol : float -> list float) (t_old t : float) : float :=
  brentq (fun t => event_call event t (sol t)) t_old t.

(** [handle_events]: the roots of the active events; when one of them is
    terminal, the roots in the order the integration meets them, up to the
    first terminal one. The negated keys sort a backward step. *)
Definition handle_events (sol : float -> list float)
    (active_events : list (nat * IBLTermEvent)) (t_old t : float)
    : list ((nat * IBLTermEvent) * float) * bool :=
  let roots :=
    map (fun ie => (ie, solve_event_equation (snd ie) sol t_old t))
      active_events in
  if existsb (fun ie => terminal (snd ie)) active_events then
    let sorted :=
      if (t_old <? t)%float then sort_by_key roots
      else
        map (fun r => (fst r, (- snd r)%float))
          (sort_by_key (map (fun r => (fst r, (- snd r)%float)) roots)) in
    match first_terminal sorted with
    | Some k => (firstn (S k) sorted, true)
    | None => (sorted, true)
    end
  else (roots, false).

(** The state of the driver loop. *)
Record IvpState : Type := mkIvpState {
  ivp_g : list float;
  ivp_t_events : list (list float);
  ivp_ts : list float;
  ivp_interpolants : list DenseOutput
}.

(** [roots[-1]] *)
Definition last_root (l : list ((nat * IBLTermEvent) * float))
    (d : float) : float :=
  last (map snd l) d.

(** [[event(t, y) for event in events]] *)
Definition event_values (events : list IBLTermEvent) (t : float)
    (y : list float) : list float :=
  map (fun e => event_call e t y) events.

(** The event block of one iteration: the new status, the station the
    step ends at, the event values and the recorded stations. *)
Definition watch_events (events : list IBLTermEvent) (st : IvpState)
    (s : Step) (status : option Z)
    : option Z * float * list float * list (list float) :=
  let g_new := event_values events (step_t s) (step_y s) in
  let active_events := find_active_events 0 events (ivp_g st) g_new in
  match active_events with
  | [] => (status, step_t s, g_new, ivp_t_events st)
  | _ =>
      let '(roots, terminate) :=
        handle_events (seg_call (step_dense s)) active_events
          (step_t_old s) (step_t s) in
      let t_events :=
        fold_left
          (fun t_events r => append_at (fst (fst r)) (snd r) t_events)
          roots (ivp_t_events st) in
      if terminate then
        (Some 1, last_root roots (step_t s), g_new, t_events)
      else (status, step_t s, g_new, t_events)
  end.

(** The driver loop, one iteration per element of [steps]. The result is
    the status, the message of the last [solver.step()] and the final
    state; [None] when the loop is still running after [steps]. *)
Fixpoint ivp_loop (events : option (list IBLTermEvent)) (steps : list Step)
    (st : IvpState) : option (Z * string * IvpState) :=
  match steps with
  | [] => None
  | s :: steps' =>
      match step_status s with
      | Failed => Some (-1, step_message s, st)
      | _ =>
          let status :=
            match step_status s with Finished => Some 0 | _ => None end in
          let interpolants := ivp_interpolants st ++ [step_dense s] in
          let '(status, t, g, t_events) :=
            match events with
            | None => (status, step_t s, ivp_g st, ivp_t_events st)
            | Some events => watch_events events st s status
            end in
          let st :=
            {| ivp_g := g; ivp_t_events := t_events;
               ivp_ts := ivp_ts st ++ [t];
               ivp_interpolants := interpolants |} in
          match status with
          | Some status => Some (status, step_message s, st)
          | None => ivp_loop events steps' st
          end
      end
  end.

(** [solve_ivp(fun, t_span, y0, method='RK45', dense_output=True,
    events=events, rtol=rtol, atol=atol)]. A stepper that neither finishes
    nor fails within its steps is reported as an error of the model. *)
Definition solve_ivp_RK45 (fn : float -> list float -> list float)
    (t_span : float * float) (y0 : list float)
    (events : option (list IBLTermEvent)) (rtol atol : float)
    : Py OdeResult :=
  let t0 := fst t_span in
  let st0 :=
    {| ivp_g :=
         match events with
         | Some events => event_values events t0 y0
         | None => []
         end;
       ivp_t_events :=
         match events with
         | Some events => map (fun _ => []) events
         | None => []
         end;
       ivp_ts := [t0];
       ivp_interpolants := [] |} in
  match ivp_loop events (rk45_steps fn t_span y0 rtol atol) st0 with
  | None => raise (ValueError "the stepper did not come to an end")
  | Some (status, message, st) =>
      ret {| ode_t := ivp_ts st;
             ode_sol := OdeSolution (ivp_ts st) (ivp_interpolants st);
             ode_t_events :=
               match events with
               | Some _ => Some (ivp_t_events st)
               | None => None
               end;
             ode_status := status;
             ode_message :=
               match dict_get MESSAGES status with
               | Some m => m
               | None => message
               end;
             ode_success := (0 <=? status) |}
  end.

End Ivp.

(** ** The same loop over an arbitrary [np.argsort]

    NumPy's default [argsort] is not a stable sort, and which of several
    equal keys comes first depends on the algorithm it picks. Here the sort
    of the roots is a parameter; [solve_ivp_RK45] is the instance at the
    insertion sort above. *)

Section IvpBy.

Variable argsort :
  list ((nat * IBLTermEvent) * float) -> list ((nat * IBLTermEvent) * float).
Variable brentq : (float -> float) -> float -> float -> float.
Variable rk45_steps :
  (float -> list float -> list float) -> float * float -> list float ->
  float -> float -> list Step.
Variable OdeSolution : list float -> list DenseOutput -> float -> list float.

Definition handle_events_by (sol : float -> list float)
    (active_events : list (nat * IBLTermEvent)) (t_old t : float)
    : list ((nat * IBLTermEvent) * float) * bool :=
  let roots :=
    map (fun ie => (ie, solve_event_equation brentq (snd ie) sol t_old t))
      active_events in
  if existsb (fun ie => terminal (snd ie)) active_events then
    let sorted :=
      if (t_old <? t)%float then argsort roots
      else
        map (fun r => (fst r, (- snd r)%float))
          (argsort (map (fun r => (fst r, (- snd r)%float)) roots)) in
    match first_terminal sorted with
    | Some k => (firstn (S k) sorted, true)
    | None => (sorted, true)
    end
  else (roots, false).

Definition watch_events_by (events : list IBLTermEvent) (st : IvpState)
    (s : Step) (status : option Z)
    : option Z * float * list float * list (list float) :=
  let g_new := event_values events (step_t s) (step_y s) in
  let active_events := find_active_events 0 events (ivp_g st) g_new in
  match active_events with
  | [] => (status, step_t s, g_new, ivp_t_events st)
  | _ =>
      let '(roots, terminate) :=
        handle_events_by (seg_call (step_dense s)) active_events
          (step_t_old s) (step_t s) in
      let t_events :=
        fold_left
          (fun t_events r => append_at (fst (fst r)) (snd r) t_events)
          roots (ivp_t_events st) in
      if terminate then
        (Some 1, last_root roots (step_t s), g_new, t_events)
      else (status, step_t s, g_new, t_events)
  end.

Fixpoint ivp_loop_by (events : option (list IBLTermEvent))
    (steps : list Step) (st : IvpState) : option (Z * string * IvpState) :=
  match steps with
  | [] => None
  | s :: steps' =>
      match step_status s with
      | Failed => Some (-1, step_message s, st)
      | _ =>
          let status :=
            match step_status s with Finished => Some 0 | _ => None end in
          let interpolants := ivp_interpolants st ++ [step_dense s] in
          let '(status, t, g, t_events) :=
            match events with
            | None => (status, step_t s, ivp_g st, ivp_t_events st)
            | Some events => watch_events_by events st s status
            end in
          let st :=
            {| ivp_g := g; ivp_t_events := t_events;
               ivp_ts := ivp_ts st ++ [t];
               ivp_interpolants := interpolants |} in
          match status with
          | Some status => Some (status, step_message s, st)
          | None => ivp_loop_by events steps' st
          end
      end
  end.

Definition solve_ivp_by (fn : float -> list float -> list float)
    (t_span : float * float) (y0 : list float)
    (events : option (list IBLTermEvent)) (rtol atol : float)
    : Py OdeResult :=
  let t0 := fst t_span in
  let st0 :=
    {| ivp_g :=
         match events with
         | Some events => event_values events t0 y0
         | None => []
         end;
       ivp_t_events :=
         match events with
         | Some events => map (fun _ => []) events
         | None => []
         end;
       ivp_ts := [t0];
       ivp_interpolants := [] |} in
  match ivp_loop_by events (rk45_steps fn t_span y0 rtol atol) st0 with
  | None => raise (ValueError "the stepper did not come to an end")
  | Some (status, message, st) =>
      ret {| ode_t := ivp_ts st;
             ode_sol := OdeSolution (ivp_ts st) (ivp_interpolants st);
             ode_t_events :=
               match events with
               | Some _ => Some (ivp_t_events st)
               | None => None
               end;
             ode_status := status;
             ode_message :=
               match dict_get MESSAGES status with
               | Some m => m
               | None => message
               end;
             ode_success := (0 <=? status) |}
  end.

End IvpBy.

(** ** A concrete case: [dF/dx = -F] on the range (0, 5) *)

Module Decay.

#[warnings="-inexact-float"]
Definition rtol : float := 1e-8%float.

#[warnings="-inexact-float"]
Definition atol : float := 1e-11%float.

Definition rhs (x : float) (F : list float) : list float :=
  map (fun f => (- f)%float) F.

Definition self : IBLBase :=
  {| _U_e := None; _dU_edx := None; _d2U_edx2 := None;
     _kill_events := None; _F := None; _solution := None;
     _ode_impl := rhs; _ode_y := [1%float]; x_vec := [];
     dense_output_vec := [] |}.

Definition xrange : float * float := (0%float, 5%float).

(** The event of the state falling to one half. *)
Definition half_event : IBLTermEvent :=
  IBLTermEventBase
    (fun _ F => (nth 0 F 0 - 0.5)%float) (-1, "state fell below 0.5").

(** A solver that hands back a given result, whatever it is asked. *)
Definition canned (rtn : OdeResult) :
    (float -> list float -> list float) -> float * float -> list float ->
    option (list IBLTermEvent) -> float -> float -> Py OdeResult :=
  fun _ _ _ _ _ _ => inr rtn.

(** A stop on an event with no station recorded for it. *)
Definition rtn_no_crossing : OdeResult :=
  {| ode_t := [0%float; 0.75%float];
     ode_sol := fun x => [(1 - x)%float];
     ode_t_events := Some [[]]; ode_status := 1;
     ode_message := "A termination event occurred.";
     ode_success := true |}.

End Decay.

(** ** A concrete stepper for [solve_ivp] *)

Module Stepper.

(** Bisection, standing for [brentq]. *)
Fixpoint bisect (fuel : nat) (f : float -> float) (a b : float) : float :=
  let m := ((a + b) / 2)%float in
  match fuel with
  | O => m
  | S fuel' =>
      if (f m =? 0)%float then m
      else if ((f a <? 0) && (0 <? f m) || (0 <? f a) && (f m <? 0))%float
      then bisect fuel' f a m
      else bisect fuel' f m b
  end.

Definition brentq : (float -> float) -> float -> float -> float :=
  bisect 60.

Definition dense (a b : float) : DenseOutput :=
  {| t_old := a; h := (b - a)%float; order := 0; Q := [[(-1)%float]];
     seg_call := fun x => [(1 - x)%float] |}.

Definition first_step : Step :=
  {| step_message := ""; step_status := Running; step_t_old := 0%float;
     step_t := 1%float; step_y := [0%float]; step_dense := dense 0 1 |}.

Definition second_step : Step :=
  {| step_message := ""; step_status := Finished; step_t_old := 1%float;
     step_t := 5%float; step_y := [(-4)%float]; step_dense := dense 1 5 |}.

Definition stalled_step : Step :=
  {| step_message :=
       "Required step size is less than spacing between numbers.";
     step_status := Failed; step_t_old := 1%float; step_t := 1%float;
     step_y := [0%float]; step_dense := dense 1 1 |}.

(** A stepper that crosses (0, 5) in two steps, and one that stalls after
    its first step. *)
Definition rk45_steps (fn : float -> list float -> list float)
    (t_span : float * float) (y0 : list float) (rtol atol : float)
    : list Step :=
  [first_step; second_step].

Definition rk45_stalls (fn : float -> list float -> list float)
    (t_span : float * float) (y0 : list float) (rtol atol : float)
    : list Step :=
  [first_step; stalled_step].

Definition OdeSolution (ts : list float) (interpolants : list DenseOutput)
    (x : float) : list float :=
  [(1 - x)%float].

Definition solve_ivp :=
  solve_ivp_RK45 brentq rk45_steps OdeSolution.

Definition solve_ivp_stalls :=
  solve_ivp_RK45 brentq rk45_stalls OdeSolution.

(** What the two solvers return when no event is watched. *)
Definition rtn_finished : OdeResult :=
  {| ode_t := [0%float; 1%float; 5%float];
     ode_sol :=
       OdeSolution [0%float; 1%float; 5%float] [dense 0 1; dense 1 5];
     ode_t_events := None; ode_status := 0;
     ode_message :=
       "The solver successfully reached the end of the integration interval.";
     ode_success := true |}.

Definition rtn_stalled : OdeResult :=
  {| ode_t := [0%float; 1%float];
     ode_sol := OdeSolution [0%float; 1%float] [dense 0 1];
     ode_t_events := None; ode_status := -1;
     ode_message :=
       "Required step size is less than spacing between numbers.";
     ode_success := false |}.

End Stepper.

(** ** A concrete dense output: one cubic segment on [0, 0.5] *)

Module Cubic.

Definition seg : DenseOutput :=
  {| t_old := 0%float; h := 0.5%float; order := 3;
     Q := [[(-1)%float; 0.5%float; (-0.125)%float; 0.0625%float]];
     seg_call :=
       fun x =>
         let s := ((x - 0) / 0.5)%float in
         [(1 + 0.5 * (s * (-1 + s * (0.5 + s * (-0.125 + s * 0.0625)))))%float]
  |}.

Definition self : IBLBase :=
  {| _U_e := None; _dU_edx := None; _d2U_edx2 := None;
     _kill_events := None; _F := None; _solution := None;
     _ode_impl := Decay.rhs; _ode_y := [1%float];
     x_vec := [0%float; 0.5%float]; dense_output_vec := [seg] |}.

End Cubic.

(** ** Concrete velocity arguments *)

Module Ramp.

(** [U_e(x) = 1 + x] *)
Definition U_e : VelFun := mkVelFun (fun x => (1 + x)%float) None.

Definition d2U_edx2 : VelFun := mkVelFun (fun _ => 0%float) None.

(** Central differences on three points, standing for
    [scipy.misc.derivative] with [order=3]. *)
Definition fd (f : float -> float) (x0 dx : float) (n order : nat)
    : float :=
  match n with
  | 1%nat => ((f (x0 + dx) - f (x0 - dx)) / (2 * dx))%float
  | _ => ((f (x0 + dx) - 2 * f x0 + f (x0 - dx)) / (dx * dx))%float
  end.

Definition constant (c : float) : VelFun := mkVelFun (fun _ => c) None.

(** The straight line through two samples, standing for [CubicSpline] on
    two points; other inputs are refused. *)
Definition CubicSpline (x_pts U_e_pts : list float) : Py VelFun :=
  match x_pts, U_e_pts with
  | [x0; x1], [u0; u1] =>
      if (x0 <? x1)%float then
        let slope := ((u1 - u0) / (x1 - x0))%float in
        ret (mkVelFun (fun x => (u0 + slope * (x - x0))%float)
               (Some (fun nu =>
                        match nu with
                        | None | Some 1%nat => constant slope
                        | Some _ => constant 0%float
                        end)))
      else raise (ValueError "`x` must be strictly increasing sequence.")
  | _, _ => raise (ValueError "only two samples are handled here")
  end.

Definition vector (l : list float) : ndarray :=
  {| ndim := 1; shape := [List.length l]; data := l |}.

(** The pair [([0, 1], [1, 2])] *)
Definition samples : VelArg :=
  VSized [vector [0%float; 1%float]; vector [1%float; 2%float]].

End Ramp.

(** ** Two synthetic events inside one step *)

Module TwoEvents.

(** Registered first: [x - 0.75], a transition. Registered second:
    [x - 0.25], a separation. *)
Definition late : IBLTermEvent :=
  IBLTermEventBase (fun x _ => (x - 0.75)%float) (1, "reached 0.75").

Definition early : IBLTermEvent :=
  IBLTermEventBase (fun x _ => (x - 0.25)%float) (-1, "reached 0.25").

(** A solver result with stations recorded for both events, as none comes
    out of [solve_ivp] for terminal events. *)
Definition rtn_both : OdeResult :=
  {| ode_t := [0%float; 0.75%float];
     ode_sol := fun x => [(1 - x)%float];
     ode_t_events := Some [[0.75%float]; [0.25%float]]; ode_status := 1;
     ode_message := "A termination event occurred.";
     ode_success := true |}.

End TwoEvents.

(** ** Two segments on [0, 0.5] and [0.5, 1], and a short [x_vec] *)

Module Pieces.

Definition left : DenseOutput := Cubic.seg.

Definition right : DenseOutput :=
  {| t_old := 0.5%float; h := 0.5%float; order := 3;
     Q := [[(-0.5)%float; 0.125%float; 0%float; 0%float]];
     seg_call := fun x => [(2 - x)%float] |}.

Definition self : IBLBase :=
  {| _U_e := None; _dU_edx := None; _d2U_edx2 := None;
     _kill_events := None; _F := None; _solution := None;
     _ode_impl := Decay.rhs; _ode_y := [1%float];
     x_vec := [0%float; 0.5%float; 1%float];
     dense_output_vec := [left; right] |}.


End Pieces.

(** ** Further solver results *)

Module Outcomes.

(** What [Stepper.solve_ivp] returns for the two synthetic events. *)
Definition rtn_early : OdeResult :=
  {| ode_t := [0%float; 0.25%float];
     ode_sol :=
       Stepper.OdeSolution [0%float; 0.25%float] [Stepper.dense 0 1];
     ode_t_events := Some [[]; [0.25%float]]; ode_status := 1;
     ode_message := "A termination event occurred.";
     ode_success := true |}.

(** A result that claims success with a status [solve_ivp] does not
    use. *)
Definition rtn_odd : OdeResult :=
  {| ode_t := [0%float]; ode_sol := fun x => [(1 - x)%float];
     ode_t_events := None; ode_status := 2;
     ode_message := "stopped"; ode_success := true |}.

(** An event whose code has no label and whose reason is empty. *)
Definition unlabelled : IBLTermEvent :=
  IBLTermEventBase (fun x _ => (x - 0.75)%float) (-2, "").

End Outcomes.

(** ** Seventeen events with one and the same root *)

Module Tied.

(** Event [i] is [x - 0.5] with code [100 + i]. *)
Definition tied (i : nat) : IBLTermEvent :=
  IBLTermEventBase (fun x _ => (x - 0.5)%float)
    (100 + Z.of_nat i, "tied").

Definition events : list IBLTermEvent := map tied (seq 1 17).

(** A sort that is correct and not stable: an entry moves left past the
    entries whose key is larger or equal, so that equal keys end up in
    reverse order. It stands for an [argsort] that does not keep ties in
    place. *)
Fixpoint insert_past_ties {A : Type} (x : A * float)
    (sorted_rev : list (A * float)) : list (A * float) :=
  match sorted_rev with
  | [] => [x]
  | s :: rest =>
      if (snd x <=? snd s)%float then s :: insert_past_ties x rest
      else x :: s :: rest
  end.

Definition argsort {A : Type} (l : list (A * float)) : list (A * float) :=
  rev (fold_left (fun sorted_rev x => insert_past_ties x sorted_rev) l []).

Definition solve_ivp :=
  solve_ivp_by argsort Stepper.brentq Stepper.rk45_steps
    Stepper.OdeSolution.

End Tied.

(** ** A solver that refuses a state that is not finite *)

Module Checked.

(** [solve_ivp] raises for an initial state with a component that is not
    finite, before any step is taken. *)
Definition solve_ivp (fn : float -> list float -> list float)
    (t_span : float * float) (y0 : list float)
    (events : option (list IBLTermEvent)) (rtol atol : float)
    : Py OdeResult :=
  if forallb PrimFloat.is_finite y0 then
    Stepper.solve_ivp fn t_span y0 events rtol atol
  else
    raise (ValueError
             "All components of the initial state `y0` must be finite.").

End Checked.

(** ** Vocabulary of the properties *)

(** The stations of [x_vec] do not decrease. *)
Fixpoint ascending (l : list float) : bool :=
  match l with
  | a :: (b :: _) as l' => (a <=? b)%float && ascending l'
  | _ => true
  end.

(** [xi] lies before the first station of [x_vec] or after its last. *)
Definition outside_range (x_vec : list float) (xi : float) : Prop :=
  match x_vec with
  | [] => True
  | first :: _ =>
      (xi <? first)%float = true \/ (last x_vec first <? xi)%float = true
  end.

(** [xi] lies in the station interval of segment [j]. *)
Definition in_segment (x_vec : list float) (j : nat) (xi : float) : bool :=
  match nth_error x_vec j, nth_error x_vec (S j) with
  | Some lo, Some hi => ((lo <=? xi) && (xi <=? hi))%float
  | _, _ => false
  end.

(** The configurations on which the derivative arguments are looked at: no
    [U_e], a callable [U_e], or a sequence that is not a pair. *)
Definition derivatives_examined (U_e : option VelArg) : Prop :=
  match U_e with
  | None => True
  | Some (VCallable _) => True
  | Some (VSized items) => List.length items <> 2%nat
  | Some (VUnsized _) => False
  end.

Definition returns {A : Type} (m : Py A) : Prop :=
  match m with inr _ => True | inl _ => False end.

(** Rows of zeros (of either sign) and rows of NaN. *)
Definition zero_entries (l : list float) : Prop :=
  Forall (fun v => PrimFloat.is_zero v = true) l.

Definition nan_entries (l : list float) : Prop :=
  Forall (fun v => PrimFloat.is_nan v = true) l.






(** The instance's own events and the caller's, as lists. *)
Definition own_events (self : IBLBase) : list IBLTermEvent :=
  match _kill_events self with Some l => l | None => [] end.

Definition extra_events (term_event : TermArg) : list IBLTermEvent :=
  match term_event with
  | TermNone => []
  | TermList l => l
  | TermOne e => [e]
  end.


(** The stations of [x_vec] increase. *)
Fixpoint strictly_ascending (l : list float) : bool :=
  match l with
  | a :: (b :: _) as l' => (a <? b)%float && strictly_ascending l'
  | _ => true
  end.

Definition is_IndexError {A : Type} (m : Py A) : Prop :=
  match m with inl (IndexError _) => True | _ => False end.

(** The attributes [set_velocity] does not assign. *)
Definition same_besides_velocity (a b : IBLBase) : Prop :=
  _kill_events a = _kill_events b /\ _F a = _F b /\
  _solution a = _solution b /\ _ode_impl a = _ode_impl b /\
  _ode_y a = _ode_y b /\ x_vec a = x_vec b /\
  dense_output_vec a = dense_output_vec b.

(** Steps on which the stepper keeps running. *)
Definition all_running (steps : list Step) : Prop :=
  Forall (fun s => step_status s = Running) steps.

Unset Implicit Arguments.

(** * Properties

    ** Binary64 comparisons and special values *)

Lemma SFcompare_refl (x : spec_float) :
  x <> S754_nan -> SFcompare x x = Some Eq.
Proof.
  destruct x as [s|s| |s m e]; simpl; try congruence.
  - destruct s; reflexivity.
  - intros _. destruct s; rewrite Z.compare_refl;
      change (Pos.compare_cont Eq m m) with (Pos.compare m m);
      rewrite Pos.compare_refl; reflexivity.
Qed.

Ltac cmp_cases :=
  repeat match goal with
  | |- context [Z.compare ?a ?b] => destruct (Z.compare_spec a b)
  | H : context [Z.compare ?a ?b] |- _ => destruct (Z.compare_spec a b)
  | |- context [Pos.compare_cont Eq ?a ?b] =>
      change (Pos.compare_cont Eq a b) with (Pos.compare a b);
      destruct (Pos.compare_spec a b)
  | H : context [Pos.compare_cont Eq ?a ?b] |- _ =>
      change (Pos.compare_cont Eq a b) with (Pos.compare a b) in H;
      destruct (Pos.compare_spec a b)
  end; simpl in *; try discriminate; try reflexivity; try lia.

Ltac by_shape x :=
  destruct x as [[|]|[|]| |[|] ? ?]; simpl;
  try discriminate; try reflexivity.

Lemma SFltb_leb_trans (x y z : spec_float) :
  SFltb x y = true -> SFleb y z = true -> SFltb x z = true.
Proof.
  unfold SFltb, SFleb. by_shape x; by_shape y; by_shape z;
    intros H1 H2; cmp_cases.
Qed.

Lemma SFleb_ltb_trans (x y z : spec_float) :
  SFleb x y = true -> SFltb y z = true -> SFltb x z = true.
Proof.
  unfold SFltb, SFleb. by_shape x; by_shape y; by_shape z;
    intros H1 H2; cmp_cases.
Qed.

Lemma SFleb_trans (x y z : spec_float) :
  SFleb x y = true -> SFleb y z = true -> SFleb x z = true.
Proof.
  unfold SFleb. by_shape x; by_shape y; by_shape z;
    intros H1 H2; cmp_cases.
Qed.

Lemma SFltb_not_leb (x y : spec_float) :
  SFltb x y = true -> SFleb y x = false.
Proof.
  unfold SFltb, SFleb. by_shape x; by_shape y; intros H1; cmp_cases.
Qed.

Lemma SFltb_leb (x y : spec_float) :
  SFltb x y = true -> SFleb x y = true.
Proof.
  unfold SFltb, SFleb. by_shape x; by_shape y; intros H1; cmp_cases.
Qed.

Lemma SFleb_total (x y : spec_float) :
  x <> S754_nan -> y <> S754_nan ->
  SFltb x y = false -> SFleb y x = true.
Proof.
  unfold SFltb, SFleb. by_shape x; by_shape y; try congruence;
    intros _ _ H1; cmp_cases.
Qed.

Section FloatOrder.

Local Open Scope float_scope.

Variables a b c : float.

Lemma ltb_leb_trans : (a <? b) = true -> (b <=? c) = true -> (a <? c) = true.
Proof.
  rewrite !FloatAxioms.ltb_spec, FloatAxioms.leb_spec.
  apply SFltb_leb_trans.
Qed.

Lemma leb_ltb_trans : (a <=? b) = true -> (b <? c) = true -> (a <? c) = true.
Proof.
  rewrite !FloatAxioms.ltb_spec, FloatAxioms.leb_spec.
  apply SFleb_ltb_trans.
Qed.

Lemma leb_trans : (a <=? b) = true -> (b <=? c) = true -> (a <=? c) = true.
Proof. rewrite !FloatAxioms.leb_spec. apply SFleb_trans. Qed.

Lemma ltb_not_leb : (a <? b) = true -> (b <=? a) = false.
Proof.
  rewrite FloatAxioms.ltb_spec, FloatAxioms.leb_spec.
  apply SFltb_not_leb.
Qed.

Lemma ltb_leb : (a <? b) = true -> (a <=? b) = true.
Proof. rewrite FloatAxioms.ltb_spec, FloatAxioms.leb_spec. apply SFltb_leb. Qed.

Lemma is_nan_spec : PrimFloat.is_nan a = true <-> Prim2SF a = S754_nan.
Proof.
  unfold PrimFloat.is_nan. rewrite FloatAxioms.eqb_spec. unfold SFeqb. split.
  - intros H. destruct (Prim2SF a) eqn:E; try reflexivity;
      rewrite SFcompare_refl in H by discriminate; discriminate.
  - intros ->. reflexivity.
Qed.

Lemma is_zero_spec :
  PrimFloat.is_zero a = true <-> exists s, Prim2SF a = S754_zero s.
Proof.
  unfold PrimFloat.is_zero. rewrite FloatAxioms.eqb_spec. unfold SFeqb.
  change (Prim2SF zero) with (S754_zero false). split.
  - destruct (Prim2SF a) as [s|[|]| |[|] m e]; simpl; try discriminate.
    intros _. now exists s.
  - intros [s ->]. reflexivity.
Qed.

End FloatOrder.

Section FloatSpecial.

Local Open Scope float_scope.

Lemma not_nan_spec (a : float) :
  PrimFloat.is_nan a = false <-> Prim2SF a <> S754_nan.
Proof.
  rewrite <- is_nan_spec. destruct (PrimFloat.is_nan a); split; congruence.
Qed.

Lemma leb_total (a b : float) :
  PrimFloat.is_nan a = false -> PrimFloat.is_nan b = false ->
  (a <? b) = false -> (b <=? a) = true.
Proof.
  rewrite !not_nan_spec, FloatAxioms.ltb_spec, FloatAxioms.leb_spec.
  apply SFleb_total.
Qed.


Lemma leb_refl (a : float) :
  PrimFloat.is_nan a = false -> (a <=? a) = true.
Proof.
  rewrite not_nan_spec, FloatAxioms.leb_spec. unfold SFleb. intros H.
  rewrite (SFcompare_refl _ H). reflexivity.
Qed.

Lemma mul_zero (a b : float) :
  PrimFloat.is_zero a = true -> PrimFloat.is_zero b = true ->
  PrimFloat.is_zero (a * b) = true.
Proof.
  rewrite !is_zero_spec. intros [sa Ha] [sb Hb].
  exists (xorb sa sb). rewrite FloatAxioms.mul_spec, Ha, Hb. reflexivity.
Qed.

Lemma div_zero_zero (a b : float) :
  PrimFloat.is_zero a = true -> PrimFloat.is_zero b = true ->
  PrimFloat.is_nan (a / b) = true.
Proof.
  rewrite !is_zero_spec, is_nan_spec. intros [sa Ha] [sb Hb].
  rewrite FloatAxioms.div_spec, Ha, Hb. reflexivity.
Qed.

Lemma mul_nan_r (a b : float) :
  PrimFloat.is_nan b = true -> PrimFloat.is_nan (a * b) = true.
Proof.
  rewrite !is_nan_spec. intros Hb. rewrite FloatAxioms.mul_spec, Hb.
  destruct (Prim2SF a); reflexivity.
Qed.

Lemma add_nan_r (a b : float) :
  PrimFloat.is_nan b = true -> PrimFloat.is_nan (a + b) = true.
Proof.
  rewrite !is_nan_spec. intros Hb. rewrite FloatAxioms.add_spec, Hb.
  destruct (Prim2SF a); reflexivity.
Qed.

Lemma add_nan_l (a b : float) :
  PrimFloat.is_nan a = true -> PrimFloat.is_nan (a + b) = true.
Proof.
  rewrite !is_nan_spec. intros Ha.
  rewrite FloatAxioms.add_spec, Ha. reflexivity.
Qed.

End FloatSpecial.

(** ** [solve]: what it makes of the solver's result *)

Section SolveFacts.

Variable solve_ivp :
  (float -> list float -> list float) -> float * float -> list float ->
  option (list IBLTermEvent) -> float -> float -> Py OdeResult.

Lemma solve_result_gather self xrange y0i rtol atol term_event rtn :
  solver_returns solve_ivp self xrange y0i rtol atol term_event rtn ->
  solve_result solve_ivp self xrange y0i rtol atol term_event =
  gather xrange (as_state y0i)
    (merge_events (_kill_events self) term_event) rtn.
Proof.
  unfold solver_returns, solve_result, solve. intros ->. simpl.
  destruct (gather _ _ _ rtn); reflexivity.
Qed.

(** A failed solver run: nothing of the starting values is replaced. *)
Lemma gather_failed xrange y0 kill_events rtn :
  ode_success rtn = false ->
  gather xrange y0 kill_events rtn =
  inr {| x_end := fst xrange; F_end := y0; status := -99;
         message := final_message (-99) (ode_message rtn);
         success := false |}.
Proof. unfold gather. intros ->. reflexivity. Qed.

Lemma final_message_unknown (msg : string) :
  final_message (-99) msg =
  Some (if string_dec msg "" then "Unknown Event"
        else "Unknown Event: " ++ msg)%string.
Proof. destruct msg; reflexivity. Qed.

Lemma first_recorded_all_empty (t_events : list (list float)) :
  Forall (fun xe => xe = []) t_events ->
  forall i, first_recorded i t_events = None.
Proof.
  induction 1 as [|xe rest Hxe _ IH]; intros i; simpl.
  - reflexivity.
  - subst xe. apply IH.
Qed.

(** C1. When the solver succeeds with status 0 (no termination event
    stopped it) and its last station is the end of the range, [solve]
    returns status 0 ("Completed"), the end of the range as end station,
    the dense output there as end state, and success. *)
Theorem solve_completed self xrange y0i rtol atol term_event rtn :
  solver_returns solve_ivp self xrange y0i rtol atol term_event rtn ->
  ode_success rtn = true ->
  ode_status rtn = 0 ->
  py_last (ode_t rtn) = inr (snd xrange) ->
  solve_result solve_ivp self xrange y0i rtol atol term_event =
  inr {| x_end := snd xrange; F_end := ode_sol rtn (snd xrange);
         status := 0; message := Some "Completed"; success := true |}.
Proof.
  intros Hrtn Hok Hst Hlast.
  rewrite (solve_result_gather _ _ _ _ _ _ _ Hrtn). unfold gather.
  rewrite Hok, Hst, Hlast. reflexivity.
Qed.

(** C5. A failure of the solver reaches the caller in one of two ways.
    When the solver returns a result with its success flag unset, [solve]
    returns status -99 with success false and the message
    "Unknown Event: " followed by the solver's diagnostic text (the bare
    "Unknown Event" for an empty text). When the solver raises instead of
    returning, [solve] raises the same exception and there is no result. *)
Theorem solve_failure_reported_or_raised self xrange y0i rtol atol
    term_event :
  (forall rtn,
     solver_returns solve_ivp self xrange y0i rtol atol term_event rtn ->
     ode_success rtn = false ->
     exists res,
       solve_result solve_ivp self xrange y0i rtol atol term_event =
       inr res /\
       status res = -99 /\
       success res = false /\
       message res =
         Some (if string_dec (ode_message rtn) "" then "Unknown Event"
               else "Unknown Event: " ++ ode_message rtn)%string) /\
  (forall e,
     solve_ivp (_ode_impl self) xrange (as_state y0i)
       (merge_events (_kill_events self) term_event) rtol atol = inl e ->
     solve solve_ivp self xrange y0i rtol atol term_event = inl e /\
     solve_result solve_ivp self xrange y0i rtol atol term_event = inl e).
Proof.
  split.
  - intros rtn Hrtn Hko.
    rewrite (solve_result_gather _ _ _ _ _ _ _ Hrtn).
    rewrite (gather_failed _ _ _ _ Hko).
    eexists; split; [reflexivity|]. simpl.
    repeat split. apply final_message_unknown.
  - intros e He. unfold solve_result, solve. rewrite He.
    split; reflexivity.
Qed.

(** C6. When the solver reports a stop on an event (status 1) and no
    event has a recorded station, [solve] returns status -99 with the
    message "Unknown Event: Event not found.". *)
Theorem solve_event_not_found self xrange y0i rtol atol term_event rtn
    t_events :
  solver_returns solve_ivp self xrange y0i rtol atol term_event rtn ->
  ode_success rtn = true ->
  ode_status rtn = 1 ->
  ode_t_events rtn = Some t_events ->
  Forall (fun xe => xe = []) t_events ->
  exists res,
    solve_result solve_ivp self xrange y0i rtol atol term_event = inr res /\
    status res = -99 /\
    message res = Some "Unknown Event: Event not found.".
Proof.
  intros Hrtn Hok Hst Hev Hempty.
  rewrite (solve_result_gather _ _ _ _ _ _ _ Hrtn). unfold gather.
  rewrite Hok, Hst, Hev, (first_recorded_all_empty _ Hempty). simpl.
  eexists; split; [reflexivity|]. split; reflexivity.
Qed.

(** C9. When the solver returns a failure, the result's end station is
    the start of the station range and its end state is the initial state
    as it was handed to the solver: the sequence given, or the one-element
    vector of the scalar given. *)
Theorem solve_failure_no_progress self xrange y0i rtol atol term_event
    rtn :
  solver_returns solve_ivp self xrange y0i rtol atol term_event rtn ->
  ode_success rtn = false ->
  exists res,
    solve_result solve_ivp self xrange y0i rtol atol term_event = inr res /\
    x_end res = fst xrange /\
    F_end res = as_state y0i /\
    (forall l, y0i = Vector l -> F_end res = l) /\
    (forall v, y0i = Scalar v -> F_end res = [v]).
Proof.
  intros Hrtn Hko.
  rewrite (solve_result_gather _ _ _ _ _ _ _ Hrtn).
  rewrite (gather_failed _ _ _ _ Hko).
  eexists; split; [reflexivity|]. simpl.
  repeat split; intros ? ->; reflexivity.
Qed.

(** C10. A scalar initial state is accepted and wrapped into a one-element
    state vector before the solver is called: on the scalar [v], the
    initial state the solver receives is [[v]], the result is gathered
    from what the solver answers to that call, and [solve] on the scalar
    [v] is [solve] on the sequence [[v]]. *)
Theorem solve_scalar_state self xrange (v : float) rtol atol term_event :
  as_state (Scalar v) = [v] /\
  solve solve_ivp self xrange (Scalar v) rtol atol term_event =
  solve solve_ivp self xrange (Vector [v]) rtol atol term_event /\
  solve_result solve_ivp self xrange (Scalar v) rtol atol term_event =
  (rtn <- solve_ivp (_ode_impl self) xrange [v]
            (merge_events (_kill_events self) term_event) rtol atol ;;
   gather xrange [v] (merge_events (_kill_events self) term_event) rtn).
Proof.
  split; [reflexivity|]. split.
  - unfold solve.
    change (as_state (Vector [v])) with (as_state (Scalar v)).
    reflexivity.
  - unfold solve_result, solve. cbn [as_state].
    destruct (solve_ivp _ _ _ _ _ _) as [e|rtn]; [reflexivity|].
    cbn [bind].
    destruct (gather _ _ _ _) as [e|res]; reflexivity.
Qed.

End SolveFacts.

Lemma solve_completed_witness :
  solve_result Stepper.solve_ivp Decay.self Decay.xrange
    (Vector [1%float]) Decay.rtol Decay.atol TermNone =
  inr {| x_end := 5%float; F_end := [(-4)%float]; status := 0;
         message := Some "Completed"; success := true |}.
Proof.
  apply (solve_completed Stepper.solve_ivp Decay.self Decay.xrange
           (Vector [1%float]) Decay.rtol Decay.atol TermNone
           Stepper.rtn_finished); reflexivity.
Defined.

Lemma solve_failure_reported_or_raised_witness :
  (exists res,
     solve_result Stepper.solve_ivp_stalls Decay.self Decay.xrange
       (Vector [1%float]) Decay.rtol Decay.atol TermNone = inr res /\
     status res = -99 /\
     success res = false /\
     message res =
       Some "Unknown Event: Required step size is less than spacing between numbers.") /\
  solve Checked.solve_ivp Decay.self Decay.xrange (Vector [nan])
    Decay.rtol Decay.atol TermNone =
  inl (ValueError
         "All components of the initial state `y0` must be finite.").
Proof.
  split.
  - apply (proj1 (solve_failure_reported_or_raised Stepper.solve_ivp_stalls
                    Decay.self Decay.xrange (Vector [1%float]) Decay.rtol
                    Decay.atol TermNone) Stepper.rtn_stalled);
      reflexivity.
  - apply (proj2 (solve_failure_reported_or_raised Checked.solve_ivp
                    Decay.self Decay.xrange (Vector [nan]) Decay.rtol
                    Decay.atol TermNone)).
    reflexivity.
Defined.

(** With a solver that refuses an initial state that is not finite, a
    call on such a state gives no result record at all: the exception
    leaves [solve]. *)
Lemma solve_solver_raises :
  solve_result Checked.solve_ivp Decay.self Decay.xrange (Vector [nan])
    Decay.rtol Decay.atol TermNone =
  inl (ValueError
         "All components of the initial state `y0` must be finite.").
Proof. reflexivity. Qed.

Lemma solve_event_not_found_witness :
  exists res,
    solve_result (Decay.canned Decay.rtn_no_crossing) Decay.self
      Decay.xrange (Vector [1%float]) Decay.rtol Decay.atol
      (TermOne Decay.half_event) = inr res /\
    status res = -99 /\
    message res = Some "Unknown Event: Event not found.".
Proof.
  apply (solve_event_not_found (Decay.canned Decay.rtn_no_crossing)
           Decay.self Decay.xrange (Vector [1%float]) Decay.rtol
           Decay.atol (TermOne Decay.half_event) Decay.rtn_no_crossing
           [[]]); try reflexivity.
  repeat constructor.
Defined.

Lemma solve_failure_no_progress_witness :
  exists res,
    solve_result Stepper.solve_ivp_stalls Decay.self Decay.xrange
      (Scalar 1%float) Decay.rtol Decay.atol TermNone = inr res /\
    x_end res = 0%float /\
    F_end res = [1%float] /\
    (forall l, Scalar 1%float = Vector l -> F_end res = l) /\
    (forall v, Scalar 1%float = Scalar v -> F_end res = [v]).
Proof.
  apply (solve_failure_no_progress Stepper.solve_ivp_stalls Decay.self
           Decay.xrange (Scalar 1%float) Decay.rtol Decay.atol TermNone
           Stepper.rtn_stalled); reflexivity.
Defined.

(** ** [set_velocity] and [__init__]: the derivative arguments *)

Section VelocityFacts.

Variable fd : (float -> float) -> float -> float -> nat -> nat -> float.
Variable CubicSpline : list float -> list float -> Py VelFun.

Lemma set_velocity_callable_second_only self f (d2U_edx2 : DerArg) :
  snd (set_velocity_callable fd self f None (Some d2U_edx2)) =
  inl (ValueError
         "Can only pass second derivative if first derivative was specified").
Proof. reflexivity. Qed.

Lemma set_velocity_not_a_pair self (items : list ndarray) dU_edx d2U_edx2 :
  List.length items <> 2%nat ->
  snd (set_velocity fd CubicSpline self (VSized items) dU_edx d2U_edx2) =
  inl (ValueError "Don't know how to use {} to initialize velocity").
Proof.
  destruct items as [|a [|b [|c items]]]; simpl; intros H;
    try reflexivity. now elim H.
Qed.

Lemma init_set_velocity ode_impl U_e dU_edx d2U_edx2 e :
  snd (set_velocity fd CubicSpline (blank ode_impl) U_e dU_edx d2U_edx2) =
  inl e ->
  init fd CubicSpline ode_impl (Some U_e) dU_edx d2U_edx2 = inl e.
Proof.
  unfold init.
  destruct (set_velocity fd CubicSpline (blank ode_impl) U_e dU_edx d2U_edx2)
    as [self r].
  simpl. intros ->. reflexivity.
Qed.

(** C7, as the code has it. A second derivative given without a first one
    is refused with a [ValueError] by the constructor and by [set_velocity]
    whenever [U_e] is absent, callable, or a sequence that is not a pair. *)
Theorem second_derivative_needs_first ode_impl self (U_e : option VelArg)
    (d2U_edx2 : DerArg) :
  derivatives_examined U_e ->
  is_ValueError (init fd CubicSpline ode_impl U_e None (Some d2U_edx2)) /\
  (forall u, U_e = Some u ->
     is_ValueError
       (snd (set_velocity fd CubicSpline self u None (Some d2U_edx2)))).
Proof.
  intros Hex. destruct U_e as [[f|items|x]|]; simpl in Hex.
  - split.
    + rewrite (init_set_velocity ode_impl (VCallable f) None
                 (Some d2U_edx2) _
                 (set_velocity_callable_second_only (blank ode_impl) f
                    d2U_edx2)).
      exact I.
    + intros u [= <-]. exact I.
  - split.
    + rewrite (init_set_velocity ode_impl (VSized items) None
                 (Some d2U_edx2) _
                 (set_velocity_not_a_pair (blank ode_impl) items None
                    (Some d2U_edx2) Hex)).
      exact I.
    + intros u [= <-].
      rewrite (set_velocity_not_a_pair self items None (Some d2U_edx2)
                 Hex).
      exact I.
  - contradiction.
  - split; [exact I | discriminate].
Qed.

(** C8, at the input on which the code departs from it. For a [U_e] that
    is not callable and has no length, such as a plain number,
    [set_velocity] and the constructor raise [TypeError], not
    [ValueError]. *)
Theorem set_velocity_plain_number ode_impl self (x : float)
    (dU_edx d2U_edx2 : option DerArg) :
  is_TypeError
    (snd (set_velocity fd CubicSpline self (VUnsized x) dU_edx d2U_edx2)) /\
  is_TypeError
    (init fd CubicSpline ode_impl (Some (VUnsized x)) dU_edx d2U_edx2).
Proof. split; exact I. Qed.

(** The part of C8 the code does meet: a sequence that is not a pair is
    refused with the [ValueError] for an unknown velocity input. *)
Lemma set_velocity_three_elements self (a b c : ndarray) :
  is_ValueError
    (snd (set_velocity fd CubicSpline self (VSized [a; b; c]) None None)).
Proof. exact I. Qed.

End VelocityFacts.

Lemma second_derivative_needs_first_witness :
  is_ValueError
    (init Ramp.fd Ramp.CubicSpline Decay.rhs (Some (VCallable Ramp.U_e))
       None (Some (DCallable Ramp.d2U_edx2))) /\
  (forall u, Some (VCallable Ramp.U_e) = Some u ->
     is_ValueError
       (snd (set_velocity Ramp.fd Ramp.CubicSpline Decay.self u None
               (Some (DCallable Ramp.d2U_edx2))))).
Proof.
  apply (second_derivative_needs_first Ramp.fd Ramp.CubicSpline Decay.rhs
           Decay.self (Some (VCallable Ramp.U_e)) (DCallable Ramp.d2U_edx2)).
  exact I.
Defined.

(** C7 fails on a pair of sample vectors: the second derivative given
    without a first one is not looked at, and both calls succeed. *)
Lemma pair_with_second_derivative_accepted :
  snd (set_velocity Ramp.fd Ramp.CubicSpline Decay.self Ramp.samples None
         (Some (DCallable Ramp.d2U_edx2))) = inr tt /\
  returns (init Ramp.fd Ramp.CubicSpline Decay.rhs (Some Ramp.samples) None
             (Some (DCallable Ramp.d2U_edx2))).
Proof. split; [reflexivity | exact I]. Qed.

(** ** [y] and [yp]: stations outside the segments, and the zero offset *)

Section DenseFacts.

Local Open Scope float_scope.

Lemma ascending_head (l : list float) :
  forall a, ascending (a :: l) = true ->
  Forall (fun v => (a <=? v) = true) l.
Proof.
  induction l as [|b l IH]; intros a Ha.
  - constructor.
  - simpl in Ha. apply andb_prop in Ha as [Hab Hl].
    constructor; [exact Hab|].
    apply (Forall_impl _ (fun v Hv => leb_trans a b v Hab Hv)).
    apply IH, Hl.
Qed.

Lemma ascending_last (l : list float) (d : float) :
  ascending l = true ->
  Forall (fun v => v = last l d \/ (v <=? last l d) = true) l.
Proof.
  induction l as [|a l IH]; intros Hl.
  - constructor.
  - destruct l as [|b l].
    + constructor; [now left | constructor].
    + change (ascending (a :: b :: l))
        with ((a <=? b) && ascending (b :: l))%bool in Hl.
      apply andb_prop in Hl as [Hab Hl]. specialize (IH Hl).
      change (last (a :: b :: l) d) with (last (b :: l) d).
      constructor; [|exact IH].
      right. inversion IH as [|? ? [Hb|Hb] _]; subst.
      * rewrite <- Hb. exact Hab.
      * exact (leb_trans a b _ Hab Hb).
Qed.

(** Outside the range of an ascending [x_vec], no segment interval holds
    the station. *)
Lemma outside_no_segment (x_vec : list float) (xi : float) :
  ascending x_vec = true -> outside_range x_vec xi ->
  forall j, in_segment x_vec j xi = false.
Proof.
  intros Hasc Hout j. unfold in_segment.
  destruct (nth_error x_vec j) as [lo|] eqn:Hlo; [|reflexivity].
  destruct (nth_error x_vec (S j)) as [hi|] eqn:Hhi; [|reflexivity].
  destruct x_vec as [|first rest]; [destruct j; discriminate|].
  destruct Hout as [Hbefore|Hafter].
  - assert (Hlo' : (lo <=? xi) = false).
    { destruct j as [|j]; simpl in Hlo.
      - injection Hlo as <-. now apply ltb_not_leb.
      - apply ltb_not_leb, (ltb_leb_trans xi first lo Hbefore).
        apply nth_error_In in Hlo.
        exact (proj1 (Forall_forall _ _) (ascending_head _ _ Hasc) lo Hlo). }
    rewrite Hlo'. reflexivity.
  - assert (Hhi' : (xi <=? hi) = false).
    { apply nth_error_In in Hhi.
      destruct (proj1 (Forall_forall _ _) (ascending_last _ first Hasc) hi Hhi)
        as [-> | Hle].
      - now apply ltb_not_leb.
      - apply ltb_not_leb, (leb_ltb_trans hi _ xi Hle Hafter). }
    rewrite Hhi'. apply andb_false_r.
Qed.

Lemma y_row_no_segment (x_vec : list float) (n : nat) (xi : float) :
  (forall j, in_segment x_vec j xi = false) ->
  forall segs j, (j + List.length segs < List.length x_vec)%nat ->
  y_row x_vec n xi j segs = inr (zeros n).
Proof.
  intros Hno segs. induction segs as [|seg rest IH]; intros j Hlen.
  - reflexivity.
  - simpl in Hlen. specialize (Hno j). unfold in_segment in Hno.
    simpl. unfold py_index.
    destruct (nth_error x_vec j) as [lo|] eqn:Hlo.
    2: { apply nth_error_None in Hlo. lia. }
    destruct (nth_error x_vec (S j)) as [hi|] eqn:Hhi.
    2: { apply nth_error_None in Hhi. lia. }
    simpl. rewrite Hno. apply IH. lia.
Qed.

(** C3, as the code has it. For stations before the first or after the
    last station of an ascending [x_vec] (one more station than segments),
    [y] raises nothing: the rows of these stations are rows of zeros. *)
Theorem y_outside_range (self : IBLBase) (x : list float) :
  List.length (x_vec self) = S (List.length (dense_output_vec self)) ->
  ascending (x_vec self) = true ->
  Forall (outside_range (x_vec self)) x ->
  y self x = inr (map (fun _ => zeros (List.length (_ode_y self))) x).
Proof.
  intros Hlen Hasc Hout. unfold y.
  induction Hout as [|xi x Hxi _ IH]; simpl.
  - reflexivity.
  - rewrite (y_row_no_segment _ _ _ (outside_no_segment _ _ Hasc Hxi)) by lia.
    simpl. rewrite IH. reflexivity.
Qed.

End DenseFacts.

Lemma y_outside_range_witness :
  y Cubic.self [1.5%float; (-1)%float] = inr [[0%float]; [0%float]].
Proof.
  apply (y_outside_range Cubic.self [1.5%float; (-1)%float]).
  - reflexivity.
  - reflexivity.
  - constructor; [right; reflexivity|].
    constructor; [left; reflexivity|]. constructor.
Defined.

(** C3 fails one unit past the end station: the query returns a row of
    zeros instead of raising. *)
Lemma y_past_end_returns_zeros :
  y Cubic.self [1.5%float] = inr [[0%float]].
Proof. reflexivity. Qed.

Section ZeroOffset.

Local Open Scope float_scope.

Lemma cumprod_from_zero (l : list float) :
  forall acc, PrimFloat.is_zero acc = true -> zero_entries l ->
  zero_entries (cumprod_from acc l).
Proof.
  induction l as [|a l IH]; intros acc Hacc Hl; simpl.
  - constructor.
  - inversion Hl as [|? ? Ha Hl']; subst.
    assert (Hz : PrimFloat.is_zero (acc * a) = true)
      by now apply mul_zero.
    constructor; [exact Hz | now apply IH].
Qed.

Lemma cumprod_zero (l : list float) :
  zero_entries l -> zero_entries (cumprod l).
Proof.
  destruct l as [|a l]; intros Hl; simpl; [constructor|].
  inversion Hl; subst. constructor; [assumption|].
  now apply cumprod_from_zero.
Qed.

Lemma length_cumprod (l : list float) :
  List.length (cumprod l) = List.length l.
Proof.
  destruct l as [|a l]; simpl; [reflexivity|]. f_equal.
  generalize a. induction l as [|b l IH]; intros acc; simpl;
    [reflexivity | now rewrite IH].
Qed.

Lemma length_zip_with (f : float -> float -> float) (u : list float) :
  forall v, List.length u = List.length v ->
  List.length (zip_with f u v) = List.length u.
Proof.
  induction u as [|a u IH]; intros [|b v] H; simpl in *;
    try discriminate; [reflexivity | now rewrite IH by lia].
Qed.

Lemma zip_with_div_zero (u : list float) :
  forall v, zero_entries u -> zero_entries v ->
  nan_entries (zip_with PrimFloat.div u v).
Proof.
  induction u as [|a u IH]; intros [|b v] Hu Hv; simpl;
    try constructor.
  - inversion Hu; inversion Hv; subst. now apply div_zero_zero.
  - inversion Hu; inversion Hv; subst. now apply IH.
Qed.

Lemma zip_with_mul_nan (r : list float) :
  forall p, nan_entries p -> nan_entries (zip_with PrimFloat.mul r p).
Proof.
  induction r as [|a r IH]; intros [|b p] Hp; simpl; try constructor.
  - inversion Hp; subst. now apply mul_nan_r.
  - inversion Hp; subst. now apply IH.
Qed.

Lemma fold_add_nan (l : list float) :
  forall acc, PrimFloat.is_nan acc = true ->
  PrimFloat.is_nan (fold_left PrimFloat.add l acc) = true.
Proof.
  induction l as [|a l IH]; intros acc Hacc; simpl;
    [exact Hacc | now apply IH, add_nan_l].
Qed.

Lemma dot_nan (r p : list float) :
  List.length r = List.length p -> p <> [] -> nan_entries p ->
  exists v, dot r p = inr v /\ PrimFloat.is_nan v = true.
Proof.
  intros Hlen Hne Hp. unfold dot. rewrite Hlen, Nat.eqb_refl.
  eexists; split; [reflexivity|].
  pose proof (zip_with_mul_nan r p Hp) as Hprod.
  destruct r as [|a r], p as [|b p]; simpl in *;
    try discriminate; try congruence.
  inversion Hprod; subst. now apply fold_add_nan, add_nan_r.
Qed.

Lemma py_map_Forall {A B : Type} (f : A -> Py B) (P : A -> Prop)
    (R : B -> Prop) (l : list A) :
  (forall a, P a -> exists b, f a = inr b /\ R b) ->
  Forall P l ->
  exists bs,
    py_map f l = inr bs /\ List.length bs = List.length l /\ Forall R bs.
Proof.
  intros Hf. induction 1 as [|a l Ha _ [bs [Hbs [Hlen HR]]]]; simpl.
  - exists []. repeat split. constructor.
  - destruct (Hf a Ha) as [b [Hb HRb]]. rewrite Hb, Hbs. simpl.
    exists (b :: bs). repeat split; [simpl; now rewrite Hlen|].
    now constructor.
Qed.

Lemma length_arange_1 (order : nat) :
  List.length (arange_1 order) = S order.
Proof. unfold arange_1. now rewrite length_map, length_seq. Qed.

(** With a zero local offset every entry of [cumprod(p)/p] is [0/0], and
    the row computed from it holds NaN only. *)
Lemma seg_derivative_zero_offset (seg : DenseOutput) (xi : float) :
  PrimFloat.is_zero ((xi - t_old seg) / h seg) = true ->
  Forall (fun row => List.length row = S (order seg)) (Q seg) ->
  exists vals,
    seg_derivative seg xi = inr vals /\
    List.length vals = List.length (Q seg) /\ nan_entries vals.
Proof.
  intros Hz HQ. unfold seg_derivative.
  set (xdist := (xi - t_old seg) / h seg) in *.
  set (p0 := repeat xdist (S (order seg))).
  assert (Hp0 : zero_entries p0).
  { apply Forall_forall. intros v Hv. apply repeat_spec in Hv. now subst. }
  set (p := zip_with PrimFloat.div (cumprod p0) p0).
  assert (Hp : nan_entries p)
    by (apply zip_with_div_zero; [now apply cumprod_zero | exact Hp0]).
  assert (Hlenp : List.length p = S (order seg)).
  { unfold p. rewrite length_zip_with by apply length_cumprod.
    rewrite length_cumprod. apply repeat_length. }
  destruct (py_map_Forall (bmul (arange_1 (order seg)))
              (fun row => List.length row = S (order seg))
              (fun r => List.length r = S (order seg)) (Q seg))
    as [prod [Hprod [Hlen Hrows]]]; [|exact HQ|].
  { intros row Hrow. unfold bmul.
    rewrite length_arange_1, Hrow, Nat.eqb_refl.
    eexists; split; [reflexivity|].
    rewrite length_zip_with; rewrite length_arange_1; congruence. }
  rewrite Hprod. simpl.
  destruct (py_map_Forall (fun r => dot r p)
              (fun r => List.length r = S (order seg))
              (fun v => PrimFloat.is_nan v = true) prod)
    as [vals [Hvals [Hlen' Hnan]]]; [|exact Hrows|].
  { intros r Hr. apply dot_nan; [congruence | | exact Hp].
    intros ->. discriminate. }
  exists vals. repeat split; [exact Hvals | congruence | exact Hnan].
Qed.

Lemma yp_row_at (x_vec : list float) (n : nat) (xi : float) :
  forall segs j0 j seg,
  nth_error segs j = Some seg ->
  (forall k, (k < j)%nat -> in_segment x_vec (j0 + k) xi = false) ->
  in_segment x_vec (j0 + j) xi = true ->
  yp_row x_vec n xi j0 segs =
  (v <- seg_derivative seg xi ;; assign_row n v).
Proof.
  induction segs as [|s segs IH]; intros j0 j seg Hseg Hbefore Hat.
  - destruct j; discriminate.
  - destruct j as [|j]; simpl in Hseg.
    + injection Hseg as ->. rewrite Nat.add_0_r in Hat. simpl.
      unfold in_segment in Hat. unfold py_index.
      destruct (nth_error x_vec j0); [|discriminate].
      destruct (nth_error x_vec (S j0)); [|discriminate].
      simpl. rewrite Hat. reflexivity.
    + assert (Hlen : (S (j0 + S j) < List.length x_vec)%nat).
      { unfold in_segment in Hat. apply nth_error_Some.
        destruct (nth_error x_vec (j0 + S j)); [|discriminate].
        destruct (nth_error x_vec (S (j0 + S j))); discriminate. }
      pose proof (Hbefore 0%nat (Nat.lt_0_succ j)) as H0.
      rewrite Nat.add_0_r in H0. unfold in_segment in H0.
      simpl. unfold py_index.
      destruct (nth_error x_vec j0) as [lo|] eqn:Hlo.
      2: { apply nth_error_None in Hlo. lia. }
      destruct (nth_error x_vec (S j0)) as [hi|] eqn:Hhi.
      2: { apply nth_error_None in Hhi. lia. }
      simpl. rewrite H0.
      apply (IH (S j0) j seg Hseg).
      * intros k Hk. replace (S j0 + k)%nat with (j0 + S k)%nat by lia.
        apply Hbefore. lia.
      * replace (S j0 + j)%nat with (j0 + S j)%nat by lia. exact Hat.
Qed.

(** C4, at the inputs on which the code departs from it. When the segment
    that [yp] selects for a station has a zero local offset there, the
    quotient [cumprod(p)/p] is [0/0] in every entry: [yp] returns a row of
    NaN, not the derivative of the segment's polynomial. *)
Theorem yp_zero_offset_is_nan (self : IBLBase) (xi : float) (j : nat)
    (seg : DenseOutput) :
  nth_error (dense_output_vec self) j = Some seg ->
  (forall k, (k < j)%nat -> in_segment (x_vec self) k xi = false) ->
  in_segment (x_vec self) j xi = true ->
  PrimFloat.is_zero ((xi - t_old seg) / h seg) = true ->
  Forall (fun row => List.length row = S (order seg)) (Q seg) ->
  List.length (Q seg) = List.length (_ode_y self) ->
  exists row,
    yp self [xi] = inr [row] /\
    List.length row = List.length (_ode_y self) /\
    Forall (fun v => PrimFloat.is_nan v = true) row.
Proof.
  intros Hseg Hbefore Hat Hz HQ Hn.
  destruct (seg_derivative_zero_offset seg xi Hz HQ)
    as [vals [Hvals [Hlen Hnan]]].
  exists vals. repeat split; [|congruence|exact Hnan].
  unfold yp. simpl.
  rewrite (yp_row_at _ _ _ _ 0%nat j seg Hseg Hbefore Hat), Hvals. simpl.
  unfold assign_row. rewrite Hlen, Hn, Nat.eqb_refl. reflexivity.
Qed.

End ZeroOffset.

Lemma yp_zero_offset_is_nan_witness :
  exists row,
    yp Cubic.self [0%float] = inr [row] /\
    List.length row = 1%nat /\
    Forall (fun v => PrimFloat.is_nan v = true) row.
Proof.
  apply (yp_zero_offset_is_nan Cubic.self 0%float 0%nat Cubic.seg).
  - reflexivity.
  - intros k Hk. inversion Hk.
  - reflexivity.
  - reflexivity.
  - repeat constructor.
  - reflexivity.
Defined.

(** At the start station of the cubic segment the derivative of the
    polynomial is its first coefficient, -1; [yp] returns NaN there, and
    the derivative half of the way in. *)
Lemma yp_at_segment_start :
  yp Cubic.self [0%float; 0.25%float] = inr [[nan]; [(-0.5625)%float]].
Proof. reflexivity. Qed.

(** ** Event precedence: [solve] on what [solve_ivp] records *)

Section SortFacts.

Local Open Scope float_scope.

Context {A : Type}.

Implicit Types (x m : A * float) (l acc : list (A * float)).

Lemma insert_left_In x acc :
  forall y, In y (insert_left x acc) <-> y = x \/ In y acc.
Proof.
  induction acc as [|s acc IH]; intros y; simpl.
  - intuition congruence.
  - destruct (npy_lt (snd x) (snd s)); simpl; [rewrite IH|];
      intuition congruence.
Qed.

Lemma sort_by_key_snoc l x :
  sort_by_key (l ++ [x]) = rev (insert_left x (rev (sort_by_key l))).
Proof.
  unfold sort_by_key. now rewrite fold_left_app, rev_involutive.
Qed.

End SortFacts.

Section ActiveEvents.

Lemma find_active_events_sound (events : list IBLTermEvent) :
  forall i g g_new j e,
  In (j, e) (find_active_events i events g g_new) ->
  (i <= j)%nat /\ nth_error events (j - i) = Some e.
Proof.
  induction events as [|e0 events IH]; intros i g g_new j e Hin.
  - destruct Hin.
  - destruct g as [|a g]; [destruct Hin|].
    destruct g_new as [|b g_new]; [destruct Hin|].
    simpl in Hin.
    assert (Hrest : In (j, e) (find_active_events (S i) events g g_new) ->
                    (i <= j)%nat /\ nth_error (e0 :: events) (j - i) = Some e).
    { intros H. destruct (IH _ _ _ _ _ H) as [Hle Hnth]. split; [lia|].
      replace (j - i)%nat with (S (j - S i)) by lia. exact Hnth. }
    destruct ((a <=? 0)%float && (0 <=? b)%float
              || (0 <=? a)%float && (b <=? 0)%float); [|now apply Hrest].
    destruct Hin as [[= <- <-]|Hin]; [|now apply Hrest].
    rewrite Nat.sub_diag. split; [lia | reflexivity].
Qed.

Lemma first_recorded_append (events : list IBLTermEvent) (r : float) :
  forall k b e, nth_error events k = Some e ->
  first_recorded b (append_at k r (map (fun _ => []) events)) =
  Some ((b + k)%nat, r).
Proof.
  induction events as [|e0 events IH]; intros k b e Hk.
  - destruct k; discriminate.
  - destruct k as [|k]; simpl.
    + now rewrite Nat.add_0_r.
    + simpl in Hk. rewrite (IH k (S b) e Hk). f_equal. f_equal. lia.
Qed.

Lemma first_terminal_head (m : (nat * IBLTermEvent) * float)
    (rest : list ((nat * IBLTermEvent) * float)) :
  terminal (snd (fst m)) = true -> first_terminal (m :: rest) = Some 0%nat.
Proof. destruct m as [[i e] r]. simpl. now intros ->. Qed.

End ActiveEvents.

Section EventPrecedence.

Variable argsort :
  list ((nat * IBLTermEvent) * float) -> list ((nat * IBLTermEvent) * float).
Variable brentq : (float -> float) -> float -> float -> float.
Variable rk45_steps :
  (float -> list float -> list float) -> float * float -> list float ->
  float -> float -> list Step.
Variable OdeSolution : list float -> list DenseOutput -> float -> list float.

Local Open Scope float_scope.





(** With the insertion sort for [argsort], the loop is [solve_ivp_RK45]. *)
Lemma ivp_loop_by_insertion (events : option (list IBLTermEvent))
    (steps : list Step) :
  forall st,
  ivp_loop_by (@sort_by_key (nat * IBLTermEvent)) brentq events steps st =
  ivp_loop brentq events steps st.
Proof.
  induction steps as [|s steps IH]; intros st; [reflexivity|].
  cbn [ivp_loop_by ivp_loop].
  change (watch_events_by (@sort_by_key (nat * IBLTermEvent)) brentq)
    with (watch_events brentq).
  destruct (step_status s); try reflexivity;
    destruct events as [events|];
    repeat match goal with
           | |- context [let '(_, _) := ?x in _] => destruct x
           end;
    try match goal with
        | |- context [match ?o with Some _ => _ | None => _ end] =>
            destruct o
        end;
    try reflexivity; apply IH.
Qed.

Lemma solve_ivp_by_insertion (fn : float -> list float -> list float)
    (t_span : float * float) (y0 : list float)
    (events : option (list IBLTermEvent)) (rtol atol : float) :
  solve_ivp_by (@sort_by_key (nat * IBLTermEvent)) brentq rk45_steps
    OdeSolution fn t_span y0 events rtol atol =
  solve_ivp_RK45 brentq rk45_steps OdeSolution fn t_span y0 events rtol
    atol.
Proof.
  unfold solve_ivp_by, solve_ivp_RK45.
  now rewrite ivp_loop_by_insertion.
Qed.

(** Events registered on the instance are appended in the order of the
    calls. *)
Lemma own_events_add (self : IBLBase) (ke : IBLTermEvent) :
  own_events (_add_kill_event self ke) = own_events self ++ [ke].
Proof.
  unfold own_events, _add_kill_event.
  destruct (_kill_events self); reflexivity.
Qed.



End EventPrecedence.



(** The two synthetic events, the later one registered first: the run ends
    at 0.25 with the status and reason of the earlier event. *)
Lemma two_events_earliest_wins :
  solve_result Stepper.solve_ivp Decay.self Decay.xrange
    (Vector [1%float]) Decay.rtol Decay.atol
    (TermList [TwoEvents.late; TwoEvents.early]) =
  inr {| x_end := 0.25%float; F_end := [0.75%float]; status := -1;
         message := Some "Separated: reached 0.25"; success := true |}.
Proof. reflexivity. Qed.

(** [solve] by itself goes by registration order: were stations recorded
    for several events, it would report the first registered of them. *)
Lemma gather_registration_order :
  solve_result (Decay.canned TwoEvents.rtn_both) Decay.self
    Decay.xrange (Vector [1%float]) Decay.rtol Decay.atol
    (TermList [TwoEvents.late; TwoEvents.early]) =
  inr {| x_end := 0.75%float; F_end := [0.25%float]; status := 1;
         message := Some "Transition: reached 0.75"; success := true |}.
Proof. reflexivity. Qed.

(** * Further properties

    ** The velocity attributes and their accessors *)

Section VelocityAccess.

Variable fd : (float -> float) -> float -> float -> nat -> nat -> float.
Variable CubicSpline : list float -> list float -> Py VelFun.

(** An instance constructed without a velocity answers every velocity
    query with a [ValueError]. *)
Theorem accessors_before_velocity ode_impl :
  exists self,
    init fd CubicSpline ode_impl None None None = inr self /\
    forall x,
      is_ValueError (U_e self x) /\ is_ValueError (dU_edx self x) /\
      is_ValueError (d2U_edx2 self x).
Proof. eexists; split; [reflexivity|]. intros x. repeat split. Qed.

Lemma set_velocity_callable_frame (self : IBLBase) (f : VelFun)
    (dU d2 : option DerArg) :
  same_besides_velocity self (fst (set_velocity_callable fd self f dU d2)) /\
  (snd (set_velocity_callable fd self f dU d2) = inr tt ->
   _U_e (fst (set_velocity_callable fd self f dU d2)) = Some f).
Proof.
  unfold set_velocity_callable, same_besides_velocity.
  destruct dU as [[g|]|], d2 as [d2|]; simpl;
    try (destruct (vderivative f)); try (destruct (vderivative g));
    simpl; repeat split; discriminate.
Qed.

(** [set_velocity] assigns the three velocity attributes and nothing else:
    whether it returns or raises, every other attribute of the instance is
    as before. When it returns, the stored [U_e] is the callable given,
    or the spline built from the pair of sample vectors. *)
Theorem set_velocity_other_attributes (self : IBLBase) (u : VelArg)
    (dU d2 : option DerArg) :
  same_besides_velocity self
    (fst (set_velocity fd CubicSpline self u dU d2)) /\
  (snd (set_velocity fd CubicSpline self u dU d2) = inr tt ->
   match u with
   | VCallable f =>
       _U_e (fst (set_velocity fd CubicSpline self u dU d2)) = Some f
   | VSized [x_pts; U_e_pts] =>
       exists spl,
         spline_of_pair CubicSpline x_pts U_e_pts = inr spl /\
         _U_e (fst (set_velocity fd CubicSpline self u dU d2)) = Some spl
   | _ => False
   end).
Proof.
  destruct u as [f|items|x]; cbn [set_velocity].
  - apply set_velocity_callable_frame.
  - destruct items as [|a [|b [|c items]]];
      try (split; [repeat split | discriminate]).
    destruct (spline_of_pair CubicSpline a b) as [e|spl];
      [split; [repeat split | discriminate]|].
    destruct (set_velocity_callable_frame self spl None None) as [H1 H2].
    split; [exact H1|]. intros Hok. exists spl. split; [reflexivity|].
    exact (H2 Hok).
  - split; [repeat split | discriminate].
Qed.

(** Where the derivatives come from after a successful [set_velocity] with
    a callable [U_e]: the object's own [derivative] method when it has one,
    central differences with step 1e-4 otherwise; with the first
    derivative given, its [derivative] method or differences of it with
    step 1e-5. *)
Theorem velocity_derivative_sources (self : IBLBase) (c g : float -> float)
    (d dg : option nat -> VelFun) (x : float) :
  (let self' :=
     fst (set_velocity fd CubicSpline self (VCallable (mkVelFun c None))
            None None) in
   U_e self' x = inr (c x) /\
   dU_edx self' x = inr (fd c x dx_first 1 3) /\
   d2U_edx2 self' x = inr (fd c x dx_first 2 3)) /\
  (let self' :=
     fst (set_velocity fd CubicSpline self
            (VCallable (mkVelFun c (Some d))) None None) in
   dU_edx self' x = inr (vcall (d None) x) /\
   d2U_edx2 self' x = inr (vcall (d (Some 2%nat)) x)) /\
  (let self' :=
     fst (set_velocity fd CubicSpline self (VCallable (mkVelFun c None))
            (Some (DCallable (mkVelFun g None))) None) in
   dU_edx self' x = inr (g x) /\
   d2U_edx2 self' x = inr (fd g x dx_second 1 3)) /\
  (let self' :=
     fst (set_velocity fd CubicSpline self (VCallable (mkVelFun c None))
            (Some (DCallable (mkVelFun g (Some dg)))) None) in
   d2U_edx2 self' x = inr (vcall (dg None) x)).
Proof. repeat split. Qed.

(** A failing [set_velocity] is not atomic for a callable [U_e]: when
    the call raises, the new [U_e] is already stored on the instance. For
    any other [U_e] a failure leaves the instance as it was. *)
Theorem set_velocity_failure_state (self : IBLBase) (u : VelArg)
    (dU d2 : option DerArg) (e : PyExc) :
  snd (set_velocity fd CubicSpline self u dU d2) = inl e ->
  match u with
  | VCallable f =>
      _U_e (fst (set_velocity fd CubicSpline self u dU d2)) = Some f
  | _ => fst (set_velocity fd CubicSpline self u dU d2) = self
  end.
Proof.
  destruct u as [f|items|x]; simpl.
  - unfold set_velocity_callable.
    destruct dU as [[g|]|], d2 as [d2|]; simpl;
      try (destruct (vderivative f)); try (destruct (vderivative g));
      simpl; try discriminate; intros _; reflexivity.
  - destruct items as [|a [|b [|c items]]]; try reflexivity.
    destruct (spline_of_pair CubicSpline a b) as [e'|spl];
      [reflexivity|].
    unfold set_velocity_callable. destruct (vderivative spl); discriminate.
  - reflexivity.
Qed.

(** The second derivative is stored unchecked: with a callable [U_e] and a
    callable first derivative, an object that cannot be called is accepted
    by [set_velocity], and the error, a [TypeError], comes only when the
    second derivative is queried. *)
Theorem second_derivative_not_validated (self : IBLBase) (f g : VelFun)
    (x : float) :
  snd (set_velocity fd CubicSpline self (VCallable f)
         (Some (DCallable g)) (Some DNotCallable)) = inr tt /\
  is_TypeError
    (d2U_edx2
       (fst (set_velocity fd CubicSpline self (VCallable f)
               (Some (DCallable g)) (Some DNotCallable))) x).
Proof. split; [reflexivity | exact I]. Qed.

(** The checks on a pair of sample vectors: for one-dimensional vectors of
    lengths [n] and [m] the spline is built exactly when [n = m] and
    [2 <= n]; otherwise the call fails with a [ValueError]. *)
Theorem spline_of_pair_lengths (dx du : list float) (n m : nat) :
  let x_pts := {| ndim := 1; shape := [n]; data := dx |} in
  let U_e_pts := {| ndim := 1; shape := [m]; data := du |} in
  (n = m /\ (2 <= n)%nat ->
   spline_of_pair CubicSpline x_pts U_e_pts = CubicSpline dx du) /\
  (~ (n = m /\ (2 <= n)%nat) ->
   is_ValueError (spline_of_pair CubicSpline x_pts U_e_pts)).
Proof.
  intros x_pts U_e_pts. unfold spline_of_pair. simpl. split.
  - intros [<- Hn]. rewrite Nat.eqb_refl. simpl.
    destruct (Nat.ltb_spec n 2); [lia | reflexivity].
  - intros Hnot. destruct (Nat.eqb_spec n m) as [<-|Hne]; simpl.
    + destruct (Nat.ltb_spec n 2); [exact I | exfalso; apply Hnot; lia].
    + exact I.
Qed.

(** A sample vector that is not one-dimensional is refused with a
    [ValueError] when it has a first axis; a 0-dimensional first element
    is met by [shape[0]] first and raises [IndexError]. *)
Theorem spline_of_pair_dimensions (x_pts U_e_pts : ndarray) :
  (shape x_pts = [] -> is_IndexError (spline_of_pair CubicSpline x_pts
                                        U_e_pts)) /\
  (shape x_pts <> [] -> ndim x_pts <> 1%nat ->
   is_ValueError (spline_of_pair CubicSpline x_pts U_e_pts)) /\
  (shape x_pts <> [] -> ndim x_pts = 1%nat -> ndim U_e_pts <> 1%nat ->
   is_ValueError (spline_of_pair CubicSpline x_pts U_e_pts)).
Proof.
  unfold spline_of_pair, shape0. repeat split.
  - intros ->. exact I.
  - intros Hs Hd. destruct (shape x_pts); [congruence|]. simpl.
    destruct (Nat.eqb_spec (ndim x_pts) 1); [congruence | exact I].
  - intros Hs Hd Hu. destruct (shape x_pts); [congruence|]. simpl.
    rewrite Hd. simpl.
    destruct (Nat.eqb_spec (ndim U_e_pts) 1); [congruence | exact I].
Qed.

(** On a pair of sample vectors the derivative arguments play no part: the
    outcome is that of the call without them, and when the spline has a
    [derivative] method the stored derivatives are the spline's first and
    second derivative. *)
Theorem set_velocity_pair_from_spline (self : IBLBase)
    (x_pts U_e_pts : ndarray) (dU d2 : option DerArg) :
  set_velocity fd CubicSpline self (VSized [x_pts; U_e_pts]) dU d2 =
  set_velocity fd CubicSpline self (VSized [x_pts; U_e_pts]) None None /\
  forall c d,
    spline_of_pair CubicSpline x_pts U_e_pts = inr (mkVelFun c (Some d)) ->
    set_velocity fd CubicSpline self (VSized [x_pts; U_e_pts]) dU d2 =
    (set_d2U_edx2
       (set_dU_edx (set_U_e self (Some (mkVelFun c (Some d))))
          (Some (d None)))
       (Some (DCallable (d (Some 2%nat)))), inr tt).
Proof.
  split; [reflexivity|]. intros c d Hspl. simpl. rewrite Hspl. reflexivity.
Qed.

End VelocityAccess.

(** ** [solve]: events, messages and the instance *)

Section SolveMore.

Variable solve_ivp :
  (float -> list float -> list float) -> float * float -> list float ->
  option (list IBLTermEvent) -> float -> float -> Py OdeResult.

Lemma first_recorded_split (pre post : list (list float)) (x : float)
    (xs : list float) :
  Forall (fun xe => xe = []) pre ->
  forall b,
  first_recorded b (pre ++ (x :: xs) :: post) =
  Some ((b + List.length pre)%nat, x).
Proof.
  induction 1 as [|xe pre Hxe _ IH]; intros b; simpl.
  - now rewrite Nat.add_0_r.
  - subst xe. rewrite IH. f_equal. f_equal. lia.
Qed.

Lemma first_recorded_bound (t_events : list (list float)) :
  forall b i x, first_recorded b t_events = Some (i, x) ->
  (b <= i < b + List.length t_events)%nat.
Proof.
  induction t_events as [|[|y ys] rest IH]; intros b i x H; simpl in *.
  - discriminate.
  - apply IH in H. lia.
  - injection H as <- _. lia.
Qed.

Lemma gather_first_recorded xrange y0 events rtn pre x xs post e :
  ode_success rtn = true ->
  ode_status rtn = 1 ->
  ode_t_events rtn = Some (pre ++ (x :: xs) :: post) ->
  Forall (fun xe => xe = []) pre ->
  nth_error events (List.length pre) = Some e ->
  gather xrange y0 (Some events) rtn =
  inr {| x_end := x; F_end := ode_sol rtn x;
         status := fst (event_info e);
         message := final_message (fst (event_info e)) (snd (event_info e));
         success := true |}.
Proof.
  intros Hok Hst Hev Hpre He. unfold gather.
  rewrite Hok, Hst, Hev. cbn [Z.eqb].
  rewrite (first_recorded_split pre post x xs Hpre 0). cbn [Nat.add].
  cbn [py_event_at]. rewrite He. reflexivity.
Qed.

(** On a stop by an event [solve] reports the first event, in the order
    the events were handed to the solver, that has a station recorded, and
    of its stations the first: that station, the dense output there, and
    the event's code as status. *)
Theorem solve_reports_first_recorded self xrange y0i rtol atol term_event
    rtn events pre x xs post e :
  solver_returns solve_ivp self xrange y0i rtol atol term_event rtn ->
  merge_events (_kill_events self) term_event = Some events ->
  ode_success rtn = true ->
  ode_status rtn = 1 ->
  ode_t_events rtn = Some (pre ++ (x :: xs) :: post) ->
  Forall (fun xe => xe = []) pre ->
  nth_error events (List.length pre) = Some e ->
  exists res,
    solve_result solve_ivp self xrange y0i rtol atol term_event = inr res /\
    x_end res = x /\ F_end res = ode_sol rtn x /\
    status res = fst (event_info e) /\ success res = true.
Proof.
  intros Hrtn Hm Hok Hst Hev Hpre He.
  rewrite (solve_result_gather _ _ _ _ _ _ _ _ Hrtn), Hm.
  rewrite (gather_first_recorded xrange _ events rtn pre x xs post e
             Hok Hst Hev Hpre He).
  eexists; split; [reflexivity|]. repeat split.
Qed.

(** The message of a stop by an event: the label of the event's code, then
    the event's reason when it is not empty. A code without a label prints
    as "None", and with an empty reason the message is [None], not a
    text. *)
Theorem solve_event_message self xrange y0i rtol atol term_event rtn
    events pre x xs post e :
  solver_returns solve_ivp self xrange y0i rtol atol term_event rtn ->
  merge_events (_kill_events self) term_event = Some events ->
  ode_success rtn = true ->
  ode_status rtn = 1 ->
  ode_t_events rtn = Some (pre ++ (x :: xs) :: post) ->
  Forall (fun xe => xe = []) pre ->
  nth_error events (List.length pre) = Some e ->
  exists res,
    solve_result solve_ivp self xrange y0i rtol atol term_event = inr res /\
    let code := fst (event_info e) in
    let reason := snd (event_info e) in
    let label :=
      if code =? -1 then Some "Separated"
      else if code =? 1 then Some "Transition"
      else if code =? 0 then Some "Completed"
      else if code =? -99 then Some "Unknown Event"
      else None in
    message res =
      if string_dec reason "" then label
      else Some (match label with Some l => l | None => "None" end
                 ++ ": " ++ reason)%string.
Proof.
  intros Hrtn Hm Hok Hst Hev Hpre He.
  rewrite (solve_result_gather _ _ _ _ _ _ _ _ Hrtn), Hm.
  rewrite (gather_first_recorded xrange _ events rtn pre x xs post e
             Hok Hst Hev Hpre He).
  eexists; split; [reflexivity|]. cbn [message].
  destruct (event_info e) as [code reason]. cbn [fst snd].
  unfold final_message, TERMINATION_MESSAGES. cbn [dict_get].
  destruct reason as [|c reason].
  - cbn. destruct (Z.eqb_spec code (-1)) as [->|]; [reflexivity|].
    destruct (Z.eqb_spec code 1) as [->|]; [reflexivity|].
    destruct (Z.eqb_spec code 0) as [->|]; [reflexivity|].
    reflexivity.
  - destruct (string_dec (String c reason) ""); [discriminate|].
    replace (0 <? Z.of_nat (String.length (String c reason))) with true
      by (symmetry; apply Z.ltb_lt; simpl; lia).
    destruct (Z.eqb_spec code (-1)) as [->|]; [reflexivity|].
    destruct (Z.eqb_spec code 1) as [->|]; [reflexivity|].
    destruct (Z.eqb_spec code 0) as [->|]; [reflexivity|].
    destruct (code =? -99); reflexivity.
Qed.

(** A successful solver result whose status is neither 0 nor 1 is
    reported with status -99 at the start of the range, though [success]
    stays true. *)
Theorem solve_unexpected_status self xrange y0i rtol atol term_event rtn :
  solver_returns solve_ivp self xrange y0i rtol atol term_event rtn ->
  ode_success rtn = true ->
  ode_status rtn <> 0 ->
  ode_status rtn <> 1 ->
  exists res,
    solve_result solve_ivp self xrange y0i rtol atol term_event = inr res /\
    status res = -99 /\ success res = true /\
    x_end res = fst xrange /\ F_end res = as_state y0i /\
    message res =
      Some (if string_dec (ode_message rtn) "" then "Unknown Event"
            else "Unknown Event: " ++ ode_message rtn)%string.
Proof.
  intros Hrtn Hok H0 H1.
  rewrite (solve_result_gather _ _ _ _ _ _ _ _ Hrtn). unfold gather.
  rewrite Hok.
  destruct (Z.eqb_spec (ode_status rtn) 0); [contradiction|].
  destruct (Z.eqb_spec (ode_status rtn) 1); [contradiction|].
  eexists; split; [reflexivity|]. cbn.
  repeat split. apply final_message_unknown.
Qed.

(** [solve] raises nothing of its own on a well-formed solver result: one
    that has a last station when its status is 0 and, when its status is
    1, station lists for no more events than were handed to the solver. *)
Theorem solve_returns_on_well_formed self xrange y0i rtol atol term_event
    rtn :
  solver_returns solve_ivp self xrange y0i rtol atol term_event rtn ->
  (ode_status rtn = 0 -> ode_t rtn <> []) ->
  (ode_status rtn = 1 ->
   exists t_events events,
     ode_t_events rtn = Some t_events /\
     merge_events (_kill_events self) term_event = Some events /\
     (List.length t_events <= List.length events)%nat) ->
  returns (solve_result solve_ivp self xrange y0i rtol atol term_event).
Proof.
  intros Hrtn H0 H1.
  rewrite (solve_result_gather _ _ _ _ _ _ _ _ Hrtn). unfold gather.
  destruct (ode_success rtn); [|exact I].
  destruct (Z.eqb_spec (ode_status rtn) 0) as [E0|_].
  - specialize (H0 E0). unfold py_last.
    destruct (rev (ode_t rtn)) eqn:Hrev; [|exact I].
    apply (f_equal (@rev float)) in Hrev. rewrite rev_involutive in Hrev.
    contradiction.
  - destruct (Z.eqb_spec (ode_status rtn) 1) as [E1|_]; [|exact I].
    destruct (H1 E1) as (t_events & events & Ht & Hm & Hlen).
    rewrite Ht, Hm.
    destruct (first_recorded 0 t_events) as [[i x]|] eqn:Hfirst;
      [|exact I].
    apply first_recorded_bound in Hfirst. cbn [py_event_at].
    destruct (nth_error events i) eqn:Hi; [exact I|].
    apply nth_error_None in Hi. lia.
Qed.

Lemma gather_success xrange y0 kill_events rtn r :
  gather xrange y0 kill_events rtn = inr r ->
  success r = ode_success rtn.
Proof.
  unfold gather.
  match goal with
  | |- bind ?m _ = _ -> _ => destruct m as [e|[[[a b] c] d]]
  end; cbn; [discriminate|].
  intros [= <-]. reflexivity.
Qed.

(** What a returning [solve] does to the instance: the stored solution is
    the solver's dense output after a success and [None] after a failure,
    whatever was stored before; nothing else changes, so the events passed
    in [term_event] are not kept. *)
Theorem solve_instance_effect self xrange y0i rtol atol term_event self'
    res :
  solve solve_ivp self xrange y0i rtol atol term_event = inr (self', res) ->
  exists rtn,
    solver_returns solve_ivp self xrange y0i rtol atol term_event rtn /\
    success res = ode_success rtn /\
    _solution self' =
      (if ode_success rtn then Some (ode_sol rtn) else None) /\
    _kill_events self' = _kill_events self /\
    _U_e self' = _U_e self /\ _dU_edx self' = _dU_edx self /\
    _d2U_edx2 self' = _d2U_edx2 self /\
    x_vec self' = x_vec self /\
    dense_output_vec self' = dense_output_vec self /\
    _F self' = _F self /\ _ode_impl self' = _ode_impl self /\
    _ode_y self' = _ode_y self.
Proof.
  unfold solve, solver_returns.
  destruct (solve_ivp _ _ _ _ _ _) as [e|rtn]; [discriminate|].
  cbn [bind]. intros H. exists rtn. split; [reflexivity|].
  destruct (gather xrange (as_state y0i)
              (merge_events (_kill_events self) term_event) rtn)
    as [e|r] eqn:Hg; [discriminate|].
  cbn [bind ret] in H. injection H as <- <-.
  split; [exact (gather_success _ _ _ _ _ Hg)|]. destruct (ode_success rtn); repeat split.
Qed.

(** The events the solver is handed: those registered on the instance with
    [_add_kill_event], in the order of the calls, then those of
    [term_event]. It is [None] only when the instance never had a list of
    events, none was registered and no [term_event] was given. *)
Theorem registered_events_then_extra (self : IBLBase)
    (kes : list IBLTermEvent) (term_event : TermArg) :
  merge_events (_kill_events (fold_left _add_kill_event kes self))
    term_event =
  match _kill_events self, kes, term_event with
  | None, [], TermNone => None
  | _, _, _ => Some (own_events self ++ kes ++ extra_events term_event)
  end.
Proof.
  assert (Hown : forall kes self,
            kes <> [] \/ _kill_events self <> None ->
            _kill_events (fold_left _add_kill_event kes self) =
            Some (own_events self ++ kes)).
  { clear. induction kes as [|ke kes IH]; intros self Hne; simpl.
    - unfold own_events. destruct Hne as [Hne|Hne]; [congruence|].
      destruct (_kill_events self); [now rewrite app_nil_r | congruence].
    - rewrite IH.
      + rewrite own_events_add, <- app_assoc. reflexivity.
      + right. unfold _add_kill_event.
        destruct (_kill_events self); discriminate. }
  destruct (_kill_events self) as [l|] eqn:Hk.
  - rewrite Hown by (right; congruence).
    unfold own_events. rewrite Hk. unfold merge_events, extra_events.
    destruct term_event; simpl; rewrite ?app_nil_r, <- ?app_assoc;
      reflexivity.
  - destruct kes as [|ke kes].
    + simpl. rewrite Hk. unfold own_events. rewrite Hk.
      destruct term_event; reflexivity.
    + rewrite Hown by (left; discriminate).
      unfold own_events. rewrite Hk. unfold merge_events, extra_events.
      destruct term_event; simpl; rewrite ?app_nil_r, <- ?app_assoc;
        reflexivity.
Qed.

End SolveMore.

(** ** [y] and [yp]: stations inside the range, shapes, short [x_vec] *)

Section DenseMore.

Local Open Scope float_scope.

Lemma ltb_trans (a b c : float) :
  (a <? b) = true -> (b <? c) = true -> (a <? c) = true.
Proof.
  intros Hab Hbc. exact (ltb_leb_trans a b c Hab (ltb_leb b c Hbc)).
Qed.

Lemma ltb_not_nan (a b : float) :
  (a <? b) = true ->
  PrimFloat.is_nan a = false /\ PrimFloat.is_nan b = false.
Proof.
  rewrite FloatAxioms.ltb_spec, !not_nan_spec. unfold SFltb.
  destruct (Prim2SF a) as [|[|]| |], (Prim2SF b); simpl; split; congruence.
Qed.

Lemma strictly_ascending_head (l : list float) :
  forall a, strictly_ascending (a :: l) = true ->
  Forall (fun v => (a <? v) = true) l.
Proof.
  induction l as [|b l IH]; intros a Ha.
  - constructor.
  - simpl in Ha. apply andb_prop in Ha as [Hab Hl].
    constructor; [exact Hab|].
    apply (Forall_impl _ (fun v Hv => ltb_trans a b v Hab Hv)).
    apply IH, Hl.
Qed.

Lemma strictly_ascending_tail (a : float) (l : list float) :
  strictly_ascending (a :: l) = true -> strictly_ascending l = true.
Proof.
  destruct l as [|b l]; [reflexivity|]. simpl. intros H.
  now apply andb_prop in H as [_ H].
Qed.

(** In an increasing [x_vec] an earlier station is smaller. *)
Lemma strictly_ascending_nth (l : list float) :
  strictly_ascending l = true ->
  forall i k a b, (i < k)%nat ->
  nth_error l i = Some a -> nth_error l k = Some b -> (a <? b) = true.
Proof.
  induction l as [|c l IH]; intros Hl i k a b Hik Ha Hb.
  - destruct i; discriminate.
  - destruct k as [|k]; [lia|]. simpl in Hb. destruct i as [|i].
    + injection Ha as <-. apply nth_error_In in Hb.
      exact (proj1 (Forall_forall _ _) (strictly_ascending_head _ _ Hl)
               b Hb).
    + simpl in Ha.
      apply (IH (strictly_ascending_tail _ _ Hl) i k a b); [lia|..];
        assumption.
Qed.

Lemma y_row_at (x_vec : list float) (n : nat) (xi : float) :
  forall segs j0 j seg,
  nth_error segs j = Some seg ->
  (forall k, (k < j)%nat -> in_segment x_vec (j0 + k) xi = false) ->
  in_segment x_vec (j0 + j) xi = true ->
  y_row x_vec n xi j0 segs = assign_row n (seg_call seg xi).
Proof.
  induction segs as [|s segs IH]; intros j0 j seg Hseg Hbefore Hat.
  - destruct j; discriminate.
  - destruct j as [|j]; simpl in Hseg.
    + injection Hseg as ->. rewrite Nat.add_0_r in Hat. simpl.
      unfold in_segment in Hat. unfold py_index.
      destruct (nth_error x_vec j0); [|discriminate].
      destruct (nth_error x_vec (S j0)); [|discriminate].
      simpl. rewrite Hat. reflexivity.
    + assert (Hlen : (S (j0 + S j) < List.length x_vec)%nat).
      { unfold in_segment in Hat. apply nth_error_Some.
        destruct (nth_error x_vec (j0 + S j)); [|discriminate].
        destruct (nth_error x_vec (S (j0 + S j))); discriminate. }
      pose proof (Hbefore 0%nat (Nat.lt_0_succ j)) as H0.
      rewrite Nat.add_0_r in H0. unfold in_segment in H0.
      simpl. unfold py_index.
      destruct (nth_error x_vec j0) as [lo|] eqn:Hlo.
      2: { apply nth_error_None in Hlo. lia. }
      destruct (nth_error x_vec (S j0)) as [hi|] eqn:Hhi.
      2: { apply nth_error_None in Hhi. lia. }
      simpl. rewrite H0.
      apply (IH (S j0) j seg Hseg).
      * intros k Hk. replace (S j0 + k)%nat with (j0 + S k)%nat by lia.
        apply Hbefore. lia.
      * replace (S j0 + j)%nat with (j0 + S j)%nat by lia. exact Hat.
Qed.

(** In an increasing [x_vec], the first segment whose interval holds the
    station numbered [j + 1] is segment [j], the one that ends there. *)
Lemma knot_segment (x_vec : list float) (j : nat) (xi : float) :
  strictly_ascending x_vec = true ->
  nth_error x_vec (S j) = Some xi ->
  (forall k, (k < j)%nat -> in_segment x_vec k xi = false) /\
  in_segment x_vec j xi = true.
Proof.
  intros Hasc Hxi. split.
  - intros k Hk. unfold in_segment.
    destruct (nth_error x_vec k) as [lo|]; [|reflexivity].
    destruct (nth_error x_vec (S k)) as [hi|] eqn:Hhi; [|reflexivity].
    assert (Hlt : (hi <? xi) = true)
      by (apply (strictly_ascending_nth x_vec Hasc (S k) (S j)); [lia|..];
          assumption).
    rewrite (ltb_not_leb _ _ Hlt). apply andb_false_r.
  - unfold in_segment. rewrite Hxi.
    destruct (nth_error x_vec j) as [lo|] eqn:Hlo.
    2: { apply nth_error_None in Hlo.
         assert (nth_error x_vec (S j) <> None) by congruence.
         apply nth_error_Some in H. lia. }
    assert (Hlt : (lo <? xi) = true)
      by (apply (strictly_ascending_nth x_vec Hasc j (S j)); [lia|..];
          assumption).
    rewrite (ltb_leb _ _ Hlt), (leb_refl xi (proj2 (ltb_not_nan _ _ Hlt))).
    reflexivity.
Qed.

(** At a station of an increasing [x_vec] other than the first, [y]
    evaluates the segment that ends there: the left one at an interior
    station, the last one at the end station. *)
Theorem y_at_knot (self : IBLBase) (j : nat) (xi : float)
    (seg : DenseOutput) :
  strictly_ascending (x_vec self) = true ->
  nth_error (x_vec self) (S j) = Some xi ->
  nth_error (dense_output_vec self) j = Some seg ->
  List.length (seg_call seg xi) = List.length (_ode_y self) ->
  y self [xi] = inr [seg_call seg xi].
Proof.
  intros Hasc Hxi Hseg Hlen.
  destruct (knot_segment _ j xi Hasc Hxi) as [Hbefore Hat].
  unfold y. simpl.
  rewrite (y_row_at _ _ _ _ 0%nat j seg Hseg Hbefore Hat).
  unfold assign_row. rewrite Hlen, Nat.eqb_refl. reflexivity.
Qed.

(** At the first station of an increasing [x_vec] with at least two
    stations, [y] evaluates the first segment. *)
Theorem y_at_start (self : IBLBase) (xi hi : float) (seg : DenseOutput) :
  strictly_ascending (x_vec self) = true ->
  nth_error (x_vec self) 0 = Some xi ->
  nth_error (x_vec self) 1 = Some hi ->
  nth_error (dense_output_vec self) 0 = Some seg ->
  List.length (seg_call seg xi) = List.length (_ode_y self) ->
  y self [xi] = inr [seg_call seg xi].
Proof.
  intros Hasc Hxi Hhi Hseg Hlen.
  assert (Hlt : (xi <? hi) = true)
    by (apply (strictly_ascending_nth _ Hasc 0 1); [lia|..]; assumption).
  unfold y. simpl.
  rewrite (y_row_at _ _ _ _ 0%nat 0%nat seg Hseg).
  - unfold assign_row. rewrite Hlen, Nat.eqb_refl. reflexivity.
  - intros k Hk. lia.
  - unfold in_segment. simpl Nat.add. rewrite Hxi, Hhi.
    rewrite (leb_refl xi (proj1 (ltb_not_nan _ _ Hlt))), (ltb_leb _ _ Hlt).
    reflexivity.
Qed.

(** At a station of an increasing [x_vec] other than the first, [yp]
    differentiates the segment that ends there. *)
Theorem yp_at_knot (self : IBLBase) (j : nat) (xi : float)
    (seg : DenseOutput) :
  strictly_ascending (x_vec self) = true ->
  nth_error (x_vec self) (S j) = Some xi ->
  nth_error (dense_output_vec self) j = Some seg ->
  yp self [xi] =
  (v <- seg_derivative seg xi ;;
   row <- assign_row (List.length (_ode_y self)) v ;; ret [row]).
Proof.
  intros Hasc Hxi Hseg.
  destruct (knot_segment _ j xi Hasc Hxi) as [Hbefore Hat].
  unfold yp. simpl.
  rewrite (yp_row_at _ _ _ _ 0%nat j seg Hseg Hbefore Hat).
  destruct (seg_derivative seg xi) as [e|v]; [reflexivity|]. simpl.
  destruct (assign_row _ v); reflexivity.
Qed.

Lemma yp_row_no_segment (x_vec : list float) (n : nat) (xi : float) :
  (forall j, in_segment x_vec j xi = false) ->
  forall segs j, (j + List.length segs < List.length x_vec)%nat ->
  yp_row x_vec n xi j segs = inr (zeros n).
Proof.
  intros Hno segs. induction segs as [|seg rest IH]; intros j Hlen.
  - reflexivity.
  - simpl in Hlen. specialize (Hno j). unfold in_segment in Hno.
    simpl. unfold py_index.
    destruct (nth_error x_vec j) as [lo|] eqn:Hlo.
    2: { apply nth_error_None in Hlo. lia. }
    destruct (nth_error x_vec (S j)) as [hi|] eqn:Hhi.
    2: { apply nth_error_None in Hhi. lia. }
    simpl. rewrite Hno. apply IH. lia.
Qed.

(** For stations before the first or after the last station of an
    ascending [x_vec], [yp] raises nothing and returns rows of zeros. *)
Theorem yp_outside_range (self : IBLBase) (x : list float) :
  List.length (x_vec self) = S (List.length (dense_output_vec self)) ->
  ascending (x_vec self) = true ->
  Forall (outside_range (x_vec self)) x ->
  yp self x = inr (map (fun _ => zeros (List.length (_ode_y self))) x).
Proof.
  intros Hlen Hasc Hout. unfold yp.
  induction Hout as [|xi x Hxi _ IH]; simpl.
  - reflexivity.
  - rewrite (yp_row_no_segment _ _ _ (outside_no_segment _ _ Hasc Hxi))
      by lia.
    simpl. rewrite IH. reflexivity.
Qed.



Lemma assign_row_length (n : nat) (v r : list float) :
  assign_row n v = inr r -> List.length r = n.
Proof.
  unfold assign_row. destruct (Nat.eqb_spec (List.length v) n) as [E|_].
  - intros [= <-]. exact E.
  - destruct v as [|a [|b v]]; try discriminate.
    intros [= <-]. apply repeat_length.
Qed.

Lemma py_map_shape {A B : Type} (f : A -> Py B) (R : B -> Prop) :
  (forall a b, f a = inr b -> R b) ->
  forall l bs, py_map f l = inr bs ->
  List.length bs = List.length l /\ Forall R bs.
Proof.
  intros Hf. induction l as [|a l IH]; intros bs H; simpl in H.
  - injection H as <-. split; [reflexivity | constructor].
  - destruct (f a) as [e|b] eqn:Hb; [discriminate|]. simpl in H.
    destruct (py_map f l) as [e|bs'] eqn:Hbs; [discriminate|]. simpl in H.
    injection H as <-. destruct (IH bs' eq_refl) as [Hlen HR].
    split; [simpl; now rewrite Hlen|]. constructor; [|exact HR].
    exact (Hf a b Hb).
Qed.

Lemma y_row_length (x_vec : list float) (n : nat) (xi : float) :
  forall segs j r, y_row x_vec n xi j segs = inr r -> List.length r = n.
Proof.
  induction segs as [|seg rest IH]; intros j r H; simpl in H.
  - injection H as <-. apply repeat_length.
  - unfold py_index in H.
    destruct (nth_error x_vec j); [|discriminate].
    destruct (nth_error x_vec (S j)); [|discriminate]. simpl in H.
    destruct (_ && _); [exact (assign_row_length _ _ _ H) | eauto].
Qed.

Lemma yp_row_length (x_vec : list float) (n : nat) (xi : float) :
  forall segs j r, yp_row x_vec n xi j segs = inr r -> List.length r = n.
Proof.
  induction segs as [|seg rest IH]; intros j r H; simpl in H.
  - injection H as <-. apply repeat_length.
  - unfold py_index in H.
    destruct (nth_error x_vec j); [|discriminate].
    destruct (nth_error x_vec (S j)); [|discriminate]. simpl in H.
    destruct (_ && _); [|eauto].
    destruct (seg_derivative seg xi); [discriminate|]. simpl in H.
    exact (assign_row_length _ _ _ H).
Qed.

(** Whenever [y] or [yp] returns, the result has one row per queried
    station and every row has as many entries as the state vector. *)
Theorem dense_query_shape (self : IBLBase) (x : list float)
    (rows : list (list float)) :
  y self x = inr rows \/ yp self x = inr rows ->
  List.length rows = List.length x /\
  Forall (fun r => List.length r = List.length (_ode_y self)) rows.
Proof.
  intros [H|H]; unfold y, yp in H;
    refine (py_map_shape _ _ _ x rows H); intros xi r Hr.
  - exact (y_row_length _ _ _ _ _ _ Hr).
  - exact (yp_row_length _ _ _ _ _ _ Hr).
Qed.

End DenseMore.

(** ** [solve] on [solve_ivp]: outcomes that can and cannot arise *)

Section ModelOutcomes.

Variable brentq : (float -> float) -> float -> float -> float.
Variable rk45_steps :
  (float -> list float -> list float) -> float * float -> list float ->
  float -> float -> list Step.
Variable OdeSolution : list float -> list DenseOutput -> float -> list float.

Lemma sort_by_key_In {A : Type} (l : list (A * float)) :
  forall y, In y (sort_by_key l) <-> In y l.
Proof.
  induction l as [|x l IH] using rev_ind; intros y.
  - reflexivity.
  - rewrite sort_by_key_snoc, <- in_rev, insert_left_In, <- in_rev, IH,
      in_app_iff. simpl. intuition congruence.
Qed.

Lemma first_terminal_all (l : list ((nat * IBLTermEvent) * float)) :
  l <> [] ->
  Forall (fun r => terminal (snd (fst r)) = true) l ->
  first_terminal l = Some 0%nat.
Proof.
  destruct l as [|m l]; [congruence|]. intros _ H.
  inversion H; subst. now apply first_terminal_head.
Qed.

(** With terminal events only, [handle_events] always stops the loop and
    keeps exactly one root, that of an active event. *)
Lemma handle_events_one_root (sol : float -> list float)
    (active : list (nat * IBLTermEvent)) (t_old t : float) :
  active <> [] ->
  Forall (fun ie => terminal (snd ie) = true) active ->
  exists ie r,
    In ie active /\
    handle_events brentq sol active t_old t = ([(ie, r)], true).
Proof.
  intros Hne Hterm. unfold handle_events.
  set (roots := map (fun ie => (ie, solve_event_equation brentq (snd ie)
                                      sol t_old t)) active).
  replace (existsb (fun ie => terminal (snd ie)) active) with true.
  2:{ symmetry. apply existsb_exists. destruct active as [|ie active];
        [congruence|]. exists ie. split; [now left|].
      now inversion Hterm. }
  assert (Hroots : forall r, In r roots -> In (fst r) active).
  { intros r Hr. apply in_map_iff in Hr as (ie & <- & Hie). exact Hie. }
  assert (Hrne : roots <> [])
    by (unfold roots; destruct active; [congruence | discriminate]).
  set (neg := fun r : (nat * IBLTermEvent) * float =>
                (fst r, (- snd r)%float)).
  set (sorted := if (t_old <? t)%float then sort_by_key roots
                 else map neg (sort_by_key (map neg roots))).
  assert (Hsorted : forall r, In r sorted -> In (fst r) active).
  { intros r Hr. unfold sorted in Hr. destruct (t_old <? t)%float.
    - apply Hroots. exact (proj1 (sort_by_key_In roots r) Hr).
    - apply in_map_iff in Hr as (r1 & <- & Hr1).
      apply (proj1 (sort_by_key_In _ r1)) in Hr1.
      apply in_map_iff in Hr1 as (r2 & <- & Hr2).
      exact (Hroots r2 Hr2). }
  assert (Hsne : sorted <> []).
  { destruct roots as [|r0 roots'] eqn:E; [congruence|].
    unfold sorted. destruct (t_old <? t)%float.
    - intros Hs. assert (H : In r0 (sort_by_key (r0 :: roots')))
        by (apply sort_by_key_In; now left).
      rewrite Hs in H. destruct H.
    - intros Hs. apply map_eq_nil in Hs.
      assert (H : In (neg r0) (sort_by_key (map neg (r0 :: roots'))))
        by (apply sort_by_key_In; now left).
      rewrite Hs in H. destruct H. }
  rewrite first_terminal_all; [|exact Hsne|].
  - destruct sorted as [|[ie r] rest] eqn:E; [congruence|].
    exists ie, r. split; [|reflexivity].
    apply (Hsorted (ie, r)). now left.
  - apply Forall_forall. intros r Hr.
    exact (proj1 (Forall_forall _ _) Hterm _ (Hsorted r Hr)).
Qed.

(** With terminal events only, the loop ends with status 1 only with one
    station recorded, for one of the events. *)
Lemma ivp_loop_status_1 (events : list IBLTermEvent) :
  Forall (fun e => terminal e = true) events ->
  forall steps st msg st',
  ivp_t_events st = map (fun _ => []) events ->
  ivp_loop brentq (Some events) steps st = Some (1, msg, st') ->
  exists i e r,
    nth_error events i = Some e /\
    ivp_t_events st' = append_at i r (map (fun _ => []) events).
Proof.
  intros Hterm. induction steps as [|s steps IH]; intros st msg st' Hst H.
  - discriminate.
  - cbn [ivp_loop] in H. unfold watch_events in H.
    destruct (find_active_events 0 events (ivp_g st)
                (event_values events (step_t s) (step_y s)))
      as [|a0 active0] eqn:Hact.
    + destruct (step_status s); try discriminate.
      apply IH in H; [exact H | exact Hst].
    + assert (Hterm' : Forall (fun ie => terminal (snd ie) = true)
                         (a0 :: active0)).
      { apply Forall_forall. intros [j e] Hin. rewrite <- Hact in Hin.
        destruct (find_active_events_sound _ _ _ _ _ _ Hin) as [_ Hnth].
        apply nth_error_In in Hnth.
        exact (proj1 (Forall_forall _ _) Hterm e Hnth). }
      destruct (handle_events_one_root (seg_call (step_dense s))
                  (a0 :: active0) (step_t_old s) (step_t s))
        as ([i e] & r & Hin & Hhandle); [discriminate | exact Hterm' |].
      rewrite Hhandle in H.
      rewrite <- Hact in Hin.
      destruct (find_active_events_sound _ _ _ _ _ _ Hin) as [_ Hnth].
      rewrite Nat.sub_0_r in Hnth.
      exists i, e, r. split; [exact Hnth|].
      destruct (step_status s); try discriminate;
        injection H as _ <-; cbn; now rewrite Hst.
Qed.

(** With terminal events only, a stop by an event is never reported as
    "Event not found": whenever [solve_ivp] returns status 1, [solve]
    returns the status of one of the events and a recorded station. *)
Theorem solve_event_always_found (self : IBLBase) (xrange : float * float)
    (y0i : StateArg) (rtol atol : float) (term_event : TermArg)
    (events : list IBLTermEvent) (rtn : OdeResult) :
  merge_events (_kill_events self) term_event = Some events ->
  Forall (fun e => terminal e = true) events ->
  solver_returns (solve_ivp_RK45 brentq rk45_steps OdeSolution) self xrange
    y0i rtol atol term_event rtn ->
  ode_status rtn = 1 ->
  exists i e x res,
    nth_error events i = Some e /\
    ode_t_events rtn = Some (append_at i x (map (fun _ => []) events)) /\
    solve_result (solve_ivp_RK45 brentq rk45_steps OdeSolution) self xrange
      y0i rtol atol term_event = inr res /\
    x_end res = x /\ status res = fst (event_info e) /\
    success res = true.
Proof.
  intros Hm Hterm Hrtn Hst.
  rewrite (solve_result_gather _ _ _ _ _ _ _ _ Hrtn).
  unfold solver_returns, solve_ivp_RK45 in Hrtn. rewrite Hm in *.
  destruct (ivp_loop brentq (Some events) _ _)
    as [[[status msg] st']|] eqn:Hloop; [|discriminate].
  injection Hrtn as <-. cbn [ode_status] in Hst. subst status.
  apply (ivp_loop_status_1 events Hterm) in Hloop
    as (i & e & r & Hnth & Hev); [|reflexivity].
  exists i, e, r. eexists. split; [exact Hnth|].
  split; [cbn [ode_t_events]; now rewrite Hev|].
  unfold gather. cbn [ode_success ode_status ode_t_events Z.leb Z.compare
                      Z.eqb].
  rewrite Hev, (first_recorded_append events r i 0%nat e Hnth).
  cbn [Nat.add py_event_at]. rewrite Hnth. cbn [bind ret].
  split; [reflexivity|]. repeat split.
Qed.

Lemma py_last_snoc (l : list float) (x : float) :
  py_last (l ++ [x]) = inr x.
Proof. unfold py_last. now rewrite rev_app_distr. Qed.

(** Steps on which the stepper keeps running, with no event watched. *)
Lemma ivp_loop_running (rest : list Step) :
  forall pre st,
  all_running pre ->
  ivp_loop brentq None (pre ++ rest) st =
  ivp_loop brentq None rest
    {| ivp_g := ivp_g st; ivp_t_events := ivp_t_events st;
       ivp_ts := ivp_ts st ++ map step_t pre;
       ivp_interpolants := ivp_interpolants st ++ map step_dense pre |}.
Proof.
  induction pre as [|s pre IH]; intros st Hrun.
  - destruct st. simpl. now rewrite !app_nil_r.
  - inversion Hrun as [|? ? Hs Hpre]; subst.
    change ((s :: pre) ++ rest) with (s :: (pre ++ rest)).
    cbn [ivp_loop]. rewrite Hs. rewrite IH by exact Hpre.
    cbn [ivp_g ivp_t_events ivp_ts ivp_interpolants map].
    now rewrite <- !app_assoc.
Qed.

(** With no event registered and none passed, the outcome of [solve] is
    that of the first step on which the stepper stops running. If it
    finished: status 0, "Completed", the end station of that step and the
    dense output there. If it failed: status -99, the start of the range,
    the initial state, and the stepper's message after the "Unknown Event"
    label. *)
Theorem solve_without_events_outcome (self : IBLBase)
    (xrange : float * float) (y0i : StateArg) (rtol atol : float)
    (pre : list Step) (s : Step) (post : list Step) :
  _kill_events self = None ->
  rk45_steps (_ode_impl self) xrange (as_state y0i) rtol atol =
    pre ++ s :: post ->
  all_running pre ->
  step_status s <> Running ->
  solve_result (solve_ivp_RK45 brentq rk45_steps OdeSolution) self xrange
    y0i rtol atol TermNone =
  match step_status s with
  | Finished =>
      inr {| x_end := step_t s;
             F_end :=
               OdeSolution
                 (fst xrange :: map step_t pre ++ [step_t s])
                 (map step_dense pre ++ [step_dense s]) (step_t s);
             status := 0; message := Some "Completed"; success := true |}
  | _ =>
      inr {| x_end := fst xrange; F_end := as_state y0i; status := -99;
             message :=
               Some (if string_dec (step_message s) "" then "Unknown Event"
                     else "Unknown Event: " ++ step_message s)%string;
             success := false |}
  end.
Proof.
  intros Hk Hsteps Hrun Hstop. unfold solve_result, solve, solve_ivp_RK45.
  rewrite Hk. cbn [merge_events app]. rewrite Hsteps.
  destruct (step_status s) eqn:Hs; [congruence| |].
  - rewrite (ivp_loop_running (s :: post) pre _ Hrun).
    cbn [ivp_loop ivp_g ivp_t_events ivp_ts ivp_interpolants].
    rewrite Hs. cbn [bind ret snd]. unfold gather.
    cbn [ode_success ode_status ode_t ode_sol Z.leb Z.compare Z.eqb].
    cbn [ivp_ts ivp_interpolants]. rewrite py_last_snoc.
    reflexivity.
  - rewrite (ivp_loop_running (s :: post) pre _ Hrun).
    cbn [ivp_loop ivp_g ivp_t_events ivp_ts ivp_interpolants].
    rewrite Hs. cbn [bind ret snd]. unfold gather.
    cbn [ode_success ode_status ode_message Z.leb Z.compare dict_get
         MESSAGES Z.eqb bind ret snd].
    rewrite final_message_unknown. reflexivity.
Qed.

End ModelOutcomes.

(** ** The properties above at concrete inputs *)

Lemma set_velocity_other_attributes_witness :
  _U_e (fst (set_velocity Ramp.fd Ramp.CubicSpline Decay.self
               (VCallable Ramp.U_e) None None)) = Some Ramp.U_e.
Proof.
  apply (proj2 (set_velocity_other_attributes Ramp.fd Ramp.CubicSpline
                  Decay.self (VCallable Ramp.U_e) None None)).
  reflexivity.
Defined.

Lemma set_velocity_failure_state_witness :
  _U_e (fst (set_velocity Ramp.fd Ramp.CubicSpline Decay.self
               (VCallable Ramp.U_e) (Some DNotCallable) None)) =
    Some Ramp.U_e.
Proof.
  apply (set_velocity_failure_state Ramp.fd Ramp.CubicSpline Decay.self
           (VCallable Ramp.U_e) (Some DNotCallable) None
           (ValueError
              "Must pass in callable object for first derivative if callable U_e given")).
  reflexivity.
Defined.

Lemma solve_reports_first_recorded_witness :
  exists res,
    solve_result (Decay.canned TwoEvents.rtn_both) Decay.self Decay.xrange
      (Vector [1%float]) Decay.rtol Decay.atol
      (TermList [TwoEvents.late; TwoEvents.early]) = inr res /\
    x_end res = 0.75%float /\ F_end res = [0.25%float] /\
    status res = 1 /\ success res = true.
Proof.
  apply (solve_reports_first_recorded (Decay.canned TwoEvents.rtn_both)
           Decay.self Decay.xrange (Vector [1%float]) Decay.rtol Decay.atol
           (TermList [TwoEvents.late; TwoEvents.early]) TwoEvents.rtn_both
           [TwoEvents.late; TwoEvents.early] [] 0.75%float []
           [[0.25%float]] TwoEvents.late); try reflexivity.
  constructor.
Defined.

Lemma solve_event_message_witness :
  exists res,
    solve_result (Decay.canned TwoEvents.rtn_both) Decay.self Decay.xrange
      (Vector [1%float]) Decay.rtol Decay.atol
      (TermList [Outcomes.unlabelled; TwoEvents.early]) = inr res /\
    message res = None.
Proof.
  apply (solve_event_message (Decay.canned TwoEvents.rtn_both)
           Decay.self Decay.xrange (Vector [1%float]) Decay.rtol Decay.atol
           (TermList [Outcomes.unlabelled; TwoEvents.early])
           TwoEvents.rtn_both [Outcomes.unlabelled; TwoEvents.early] []
           0.75%float [] [[0.25%float]] Outcomes.unlabelled);
    try reflexivity.
  constructor.
Defined.

Lemma solve_unexpected_status_witness :
  exists res,
    solve_result (Decay.canned Outcomes.rtn_odd) Decay.self Decay.xrange
      (Vector [1%float]) Decay.rtol Decay.atol TermNone = inr res /\
    status res = -99 /\ success res = true /\
    x_end res = 0%float /\ F_end res = [1%float] /\
    message res = Some "Unknown Event: stopped".
Proof.
  apply (solve_unexpected_status (Decay.canned Outcomes.rtn_odd)
           Decay.self Decay.xrange (Vector [1%float]) Decay.rtol Decay.atol
           TermNone Outcomes.rtn_odd); try reflexivity; discriminate.
Defined.

Lemma solve_returns_on_well_formed_witness :
  returns
    (solve_result Stepper.solve_ivp Decay.self Decay.xrange
       (Vector [1%float]) Decay.rtol Decay.atol
       (TermList [TwoEvents.late; TwoEvents.early])).
Proof.
  apply (solve_returns_on_well_formed Stepper.solve_ivp Decay.self
           Decay.xrange (Vector [1%float]) Decay.rtol Decay.atol
           (TermList [TwoEvents.late; TwoEvents.early]) Outcomes.rtn_early).
  - reflexivity.
  - discriminate.
  - intros _. exists [[]; [0.25%float]], [TwoEvents.late; TwoEvents.early].
    repeat split. simpl. lia.
Defined.

Lemma solve_instance_effect_witness :
  exists rtn,
    solver_returns Stepper.solve_ivp_stalls Decay.self Decay.xrange
      (Vector [1%float]) Decay.rtol Decay.atol TermNone rtn /\
    false = ode_success rtn /\
    None = (if ode_success rtn then Some (ode_sol rtn) else None) /\
    None = _kill_events Decay.self /\
    None = _U_e Decay.self /\ None = _dU_edx Decay.self /\
    None = _d2U_edx2 Decay.self /\
    [] = x_vec Decay.self /\
    [] = dense_output_vec Decay.self /\
    _F (set_solution Decay.self None) = _F Decay.self /\
    _ode_impl (set_solution Decay.self None) = _ode_impl Decay.self /\
    _ode_y (set_solution Decay.self None) = _ode_y Decay.self.
Proof.
  apply (solve_instance_effect Stepper.solve_ivp_stalls Decay.self
           Decay.xrange (Vector [1%float]) Decay.rtol Decay.atol TermNone
           (set_solution Decay.self None)
           {| x_end := 0%float; F_end := [1%float]; status := -99;
              message :=
                Some "Unknown Event: Required step size is less than spacing between numbers.";
              success := false |}).
  reflexivity.
Defined.

Lemma y_at_knot_witness :
  y Pieces.self [0.5%float] = inr [[0.71875%float]].
Proof.
  apply (y_at_knot Pieces.self 0 0.5%float Pieces.left); reflexivity.
Defined.

Lemma y_at_start_witness :
  y Pieces.self [0%float] = inr [[1%float]].
Proof.
  apply (y_at_start Pieces.self 0%float 0.5%float Pieces.left);
    reflexivity.
Defined.

Lemma yp_at_knot_witness :
  yp Pieces.self [1%float] = inr [[(-0.25)%float]].
Proof.
  apply (yp_at_knot Pieces.self 1 1%float Pieces.right); reflexivity.
Defined.

Lemma yp_outside_range_witness :
  yp Pieces.self [1.5%float; (-1)%float] = inr [[0%float]; [0%float]].
Proof.
  apply (yp_outside_range Pieces.self [1.5%float; (-1)%float]).
  - reflexivity.
  - reflexivity.
  - constructor; [right; reflexivity|].
    constructor; [left; reflexivity|]. constructor.
Defined.


Lemma dense_query_shape_witness :
  List.length [[1%float]; [0.71875%float]] =
    List.length [0%float; 0.5%float] /\
  Forall (fun r => List.length r = List.length (_ode_y Pieces.self))
    [[1%float]; [0.71875%float]].
Proof.
  apply (dense_query_shape Pieces.self [0%float; 0.5%float]
           [[1%float]; [0.71875%float]]).
  left. reflexivity.
Defined.

Lemma solve_event_always_found_witness :
  exists i e x res,
    nth_error [TwoEvents.late; TwoEvents.early] i = Some e /\
    ode_t_events Outcomes.rtn_early =
      Some (append_at i x
              (map (fun _ => []) [TwoEvents.late; TwoEvents.early])) /\
    solve_result Stepper.solve_ivp Decay.self Decay.xrange
      (Vector [1%float]) Decay.rtol Decay.atol
      (TermList [TwoEvents.late; TwoEvents.early]) = inr res /\
    x_end res = x /\ status res = fst (event_info e) /\
    success res = true.
Proof.
  apply (solve_event_always_found Stepper.brentq Stepper.rk45_steps
           Stepper.OdeSolution Decay.self Decay.xrange (Vector [1%float])
           Decay.rtol Decay.atol
           (TermList [TwoEvents.late; TwoEvents.early])
           [TwoEvents.late; TwoEvents.early] Outcomes.rtn_early).
  - reflexivity.
  - repeat constructor.
  - reflexivity.
  - reflexivity.
Defined.

Lemma solve_without_events_outcome_witness :
  solve_result Stepper.solve_ivp Decay.self Decay.xrange
    (Vector [1%float]) Decay.rtol Decay.atol TermNone =
  inr {| x_end := 5%float; F_end := [(-4)%float]; status := 0;
         message := Some "Completed"; success := true |}.
Proof.
  apply (solve_without_events_outcome Stepper.brentq Stepper.rk45_steps
           Stepper.OdeSolution Decay.self Decay.xrange (Vector [1%float])
           Decay.rtol Decay.atol [Stepper.first_step] Stepper.second_step
           []).
  - reflexivity.
  - reflexivity.
  - repeat constructor.
  - discriminate.
Defined.
